(** * AI Visibility Audit: a lead-capture form and its canned results

    The repository holds three revisions of one React component, [App]:

    - [Simple]     (src/App.js, first document): two fields, a 1500ms timer;
    - [Validating] (src/App.js, second document): five fields, a presence
      check with a blocking alert, a console log, a 1500ms timer;
    - [Webhook]    (the unnamed source file): five fields, an awaited POST to
      a fixed URL inside try / catch / finally.

    The component is embedded shallowly.  A handler is a function from the
    component state to a completion, a new state, the I/O it performed and the
    callbacks it left with the browser.  Rendering is a function from the state
    to a tree of elements whose [onChange] and [onClick] properties hold the
    handlers themselves, closed over the state of that rendering, as the
    closures of a React function component are.  The browser is an event loop
    that delivers user events to the rendered tree and resumes the callbacks. *)

From Stdlib Require Import String Ascii List Bool Arith Lia.
Import ListNotations.
Local Open Scope string_scope.
Local Set Warnings "-register-all".

(** ** JavaScript values and built-ins used by the component *)

Module JS.

(** [!s] for a string [s]: only the empty string is falsy. *)
Definition not (s : string) : bool :=
  match s with
  | EmptyString => true
  | String _ _ => false
  end.

(** [Array.prototype.join] on an array of strings. *)
Fixpoint join (sep : string) (l : list string) : string :=
  match l with
  | [] => ""
  | [x] => x
  | x :: rest => x ++ sep ++ join sep rest
  end.

(** [Array.prototype.map] with the two-argument callback [(x, i) => ...]. *)
Fixpoint map_from {A B : Type} (i : nat) (f : A -> nat -> B) (l : list A)
  : list B :=
  match l with
  | [] => []
  | x :: rest => f x i :: map_from (S i) f rest
  end.

Definition map {A B : Type} (f : A -> nat -> B) (l : list A) : list B :=
  map_from 0 f l.

(** [JSON.stringify] on an object whose properties are all strings.
    Strings are held as the bytes of well-formed text, so the only
    characters that QuoteJSONString rewrites are the quote, the backslash
    and the control characters below U+0020. *)
Definition dquote : ascii := "034"%char.
Definition backslash : ascii := "092"%char.

Definition hex_digit (n : nat) : ascii :=
  nth n (list_ascii_of_string "0123456789abcdef") "0"%char.

Definition unicode_escape (n : nat) : string :=
  String backslash
    (String "u" (String "0" (String "0"
      (String (hex_digit (n / 16)) (String (hex_digit (n mod 16)) ""))))).

Definition quote_char (c : ascii) : string :=
  let n := nat_of_ascii c in
  if (n =? 8)%nat then String backslash "b"
  else if (n =? 9)%nat then String backslash "t"
  else if (n =? 10)%nat then String backslash "n"
  else if (n =? 12)%nat then String backslash "f"
  else if (n =? 13)%nat then String backslash "r"
  else if (n =? 34)%nat then String backslash (String dquote "")
  else if (n =? 92)%nat then String backslash (String backslash "")
  else if (n <? 32)%nat then unicode_escape n
  else String c "".

Fixpoint quote_chars (s : string) : string :=
  match s with
  | EmptyString => ""
  | String c rest => quote_char c ++ quote_chars rest
  end.

Definition QuoteJSONString (s : string) : string :=
  String dquote (quote_chars s ++ String dquote "").

Definition object := list (string * string).

Definition member (kv : string * string) : string :=
  QuoteJSONString (fst kv) ++ ":" ++ QuoteJSONString (snd kv).

Definition JSON_stringify (o : object) : string :=
  "{" ++ join "," (List.map member o) ++ "}".

(** [JSON.parse], restricted to what is needed to read such an object
    back: an object of string properties without white space between the
    tokens.  Of the [\u] escapes only those of one byte are read. *)
Definition hex_value (c : ascii) : option nat :=
  let n := nat_of_ascii c in
  if ((48 <=? n) && (n <=? 57))%nat then Some (n - 48)
  else if ((97 <=? n) && (n <=? 102))%nat then Some (n - 87)
  else if ((65 <=? n) && (n <=? 70))%nat then Some (n - 55)
  else None.

Definition prepend (c : ascii) (r : option (string * string))
  : option (string * string) :=
  match r with
  | Some (decoded, rest) => Some (String c decoded, rest)
  | None => None
  end.

(** Reads the characters of a string literal after its opening quote;
    returns the decoded string and what follows the closing quote. *)
Fixpoint read_chars (s : string) : option (string * string) :=
  match s with
  | EmptyString => None
  | String c rest =>
      if Ascii.eqb c dquote then Some ("", rest)
      else if Ascii.eqb c backslash then
        match rest with
        | String e rest1 =>
            if Ascii.eqb e "b" then prepend "008" (read_chars rest1)
            else if Ascii.eqb e "t" then prepend "009" (read_chars rest1)
            else if Ascii.eqb e "n" then prepend "010" (read_chars rest1)
            else if Ascii.eqb e "f" then prepend "012" (read_chars rest1)
            else if Ascii.eqb e "r" then prepend "013" (read_chars rest1)
            else if Ascii.eqb e "/" then prepend "/" (read_chars rest1)
            else if Ascii.eqb e dquote then prepend dquote (read_chars rest1)
            else if Ascii.eqb e backslash
              then prepend backslash (read_chars rest1)
            else if Ascii.eqb e "u" then
              match rest1 with
              | String "0" (String "0" (String h (String l rest2))) =>
                  match hex_value h, hex_value l with
                  | Some x, Some y =>
                      prepend (ascii_of_nat (16 * x + y)) (read_chars rest2)
                  | _, _ => None
                  end
              | _ => None
              end
            else None
        | EmptyString => None
        end
      else if (nat_of_ascii c <? 32)%nat then None
      else prepend c (read_chars rest)
  end.

Definition read_string (s : string) : option (string * string) :=
  match s with
  | String c rest => if Ascii.eqb c dquote then read_chars rest else None
  | EmptyString => None
  end.

Fixpoint read_members (fuel : nat) (s : string) : option object :=
  match fuel with
  | 0 => None
  | S fuel' =>
      match read_string s with
      | Some (k, String ":" rest) =>
          match read_string rest with
          | Some (v, String "," rest') =>
              option_map (cons (k, v)) (read_members fuel' rest')
          | Some (v, String "}" EmptyString) => Some [(k, v)]
          | _ => None
          end
      | _ => None
      end
  end.

Definition JSON_parse (s : string) : option object :=
  match s with
  | String "{" (String "}" EmptyString) => Some []
  | String "{" rest => read_members (String.length rest) rest
  | _ => None
  end.

End JS.

(** ** What a handler can do *)

(** The reason a promise rejects with, or a thrown exception. *)
Inductive error : Type :=
| JSError (name message : string).

(** The second argument of [fetch]. *)
Record RequestInit : Type := {
  method : string;
  headers : list (string * string);
  body : string
}.

Record Response : Type := {
  status : nat;
  responseText : string
}.

(** How the promise returned by [fetch] settles.  An HTTP error status is a
    fulfilled promise; only a network failure rejects. *)
Inductive settlement : Type :=
| Fulfilled (response : Response)
| Rejected (reason : error).

(** Observable I/O, in the order it happens. *)
Inductive io : Type :=
| Alert (message : string)
| ConsoleLog (label : string) (data : JS.object)
| ConsoleError (label : string) (reason : error)
| Fetch (resource : string) (options : RequestInit).

Inductive completion (A : Type) : Type :=
| Normal (a : A)
| Throw (e : error).
Arguments Normal {A} a.
Arguments Throw {A} e.

(** The result of running a block of code on a state: how it completed, the
    state after its setter calls, its I/O and the callbacks it registered. *)
Record result (T S A : Type) : Type := Result {
  value : completion A;
  next : S;
  emitted : list io;
  scheduled : list T
}.
Arguments Result {T S A}.
Arguments value {T S A}.
Arguments next {T S A}.
Arguments emitted {T S A}.
Arguments scheduled {T S A}.

(** A callback held by the browser: the function given to [setTimeout], or
    the rest of an async function suspended at [await fetch(...)]. *)
Inductive task (S : Type) : Type :=
| Timer (ms : nat) (callback : S -> result (task S) S unit)
| Awaiting (resource : string) (options : RequestInit)
           (resume : settlement -> S -> result (task S) S unit).
Arguments Timer {S}.
Arguments Awaiting {S}.

(** Code over a component state [S] producing an [A]. *)
Definition M (S A : Type) : Type := S -> result (task S) S A.

Section Monad.
Context {S : Type}.

Definition ret {A : Type} (a : A) : M S A :=
  fun s => Result (Normal a) s [] [].

Definition bind {A B : Type} (m : M S A) (f : A -> M S B) : M S B :=
  fun s =>
    let r := m s in
    match value r with
    | Normal a =>
        let r' := f a (next r) in
        Result (value r') (next r')
               (emitted r ++ emitted r') (scheduled r ++ scheduled r')
    | Throw e => Result (Throw e) (next r) (emitted r) (scheduled r)
    end.

Definition throw {A : Type} (e : error) : M S A :=
  fun s => Result (Throw e) s [] [].

(** A state setter returned by [useState], called with a plain value. *)
Definition setState (update : S -> S) : M S unit :=
  fun s => Result (Normal tt) (update s) [] [].

Definition perform (e : io) : M S unit :=
  fun s => Result (Normal tt) s [e] [].

Definition alert (message : string) : M S unit :=
  perform (Alert message).

Definition console_log (label : string) (data : JS.object) : M S unit :=
  perform (ConsoleLog label data).

Definition console_error (label : string) (reason : error) : M S unit :=
  perform (ConsoleError label reason).

(** [setTimeout(callback, ms)]: registers the callback and returns. *)
Definition setTimeout (callback : M S unit) (ms : nat) : M S unit :=
  fun s => Result (Normal tt) s [] [Timer ms callback].

(** [await fetch(resource, options)] followed by the rest of the async
    function: the request goes out, the function suspends, and [rest] runs
    when the promise settles.  [settled] is what [await] does with the
    settled promise: it yields the response or throws the reason. *)
Definition await_fetch (resource : string) (options : RequestInit)
           (rest : settlement -> M S unit) : M S unit :=
  fun s => Result (Normal tt) s [Fetch resource options]
                  [Awaiting resource options rest].

Definition settled (p : settlement) : M S Response :=
  match p with
  | Fulfilled response => ret response
  | Rejected reason => throw reason
  end.

(** [try { body } catch (error) { handler } finally { finalizer }]. *)
Definition try_catch_finally (body : M S unit) (handler : error -> M S unit)
           (finalizer : M S unit) : M S unit :=
  fun s =>
    let r1 := body s in
    let r2 :=
      match value r1 with
      | Normal _ => r1
      | Throw e =>
          let rh := handler e (next r1) in
          Result (value rh) (next rh)
                 (emitted r1 ++ emitted rh) (scheduled r1 ++ scheduled rh)
      end in
    let r3 := finalizer (next r2) in
    Result (match value r3 with
            | Normal _ => value r2
            | Throw e => Throw e
            end)
           (next r3) (emitted r2 ++ emitted r3) (scheduled r2 ++ scheduled r3).

End Monad.

Declare Scope js_scope.
Delimit Scope js_scope with js.
Notation "c1 ;; c2" := (bind c1 (fun _ => c2))
  (at level 61, right associativity) : js_scope.
Notation "x <- c1 ;; c2" := (bind c1 (fun x => c2))
  (at level 61, c1 at next level, right associativity) : js_scope.
Local Open Scope js_scope.

(** ** React elements *)

Inductive prop (H : Type) : Type :=
| className (c : string)
| type_ (t : string)
| placeholder (p : string)
| value_ (v : string)
| onChange (h : string -> H)
| onClick (h : H)
| disabled (b : bool)
| key (i : nat).
Arguments className {H}.
Arguments type_ {H}.
Arguments placeholder {H}.
Arguments value_ {H}.
Arguments onChange {H}.
Arguments onClick {H}.
Arguments disabled {H}.
Arguments key {H}.

Inductive node (H : Type) : Type :=
| Text (s : string)
| Elem (tag : string) (props : list (prop H)) (children : list (node H)).
Arguments Text {H}.
Arguments Elem {H}.

(** [{x && (<element/>)}]: a null [x] renders nothing. *)
Definition when {A H : Type} (x : option A) (element : A -> node H)
  : list (node H) :=
  match x with
  | None => []
  | Some a => [element a]
  end.

Section Dom.
Context {H : Type}.

(** The node and everything below it, in document order. *)
Fixpoint descendants (n : node H) : list (node H) :=
  n :: match n with
       | Text _ => []
       | Elem _ _ children => flat_map descendants children
       end.

Fixpoint textContent (n : node H) : string :=
  match n with
  | Text s => s
  | Elem _ _ children => String.concat "" (List.map textContent children)
  end.

Definition props_of (n : node H) : list (prop H) :=
  match n with
  | Text _ => []
  | Elem _ props _ => props
  end.

Definition children_of (n : node H) : list (node H) :=
  match n with
  | Text _ => []
  | Elem _ _ children => children
  end.

Definition has_tag (t : string) (n : node H) : bool :=
  match n with
  | Text _ => false
  | Elem tag _ _ => String.eqb tag t
  end.

Definition is_className (c : string) (p : prop H) : bool :=
  match p with
  | className c' => String.eqb c' c
  | _ => false
  end.

Definition has_class (c : string) (n : node H) : bool :=
  existsb (is_className c) (props_of n).

Definition getElementsByTagName (t : string) (root : node H)
  : list (node H) :=
  filter (has_tag t) (descendants root).

Definition getElementsByClassName (c : string) (root : node H)
  : list (node H) :=
  filter (has_class c) (descendants root).

Fixpoint get_value (props : list (prop H)) : option string :=
  match props with
  | [] => None
  | value_ v :: _ => Some v
  | _ :: rest => get_value rest
  end.

Fixpoint get_onChange (props : list (prop H)) : option (string -> H) :=
  match props with
  | [] => None
  | onChange h :: _ => Some h
  | _ :: rest => get_onChange rest
  end.

Fixpoint get_onClick (props : list (prop H)) : option H :=
  match props with
  | [] => None
  | onClick h :: _ => Some h
  | _ :: rest => get_onClick rest
  end.

Fixpoint get_disabled (props : list (prop H)) : bool :=
  match props with
  | [] => false
  | disabled b :: _ => b
  | _ :: rest => get_disabled rest
  end.

Fixpoint get_key (props : list (prop H)) : option nat :=
  match props with
  | [] => None
  | key i :: _ => Some i
  | _ :: rest => get_key rest
  end.

End Dom.

(** ** The browser's event loop *)

Record world (S : Type) : Type := World {
  store : S;
  trace : list io;
  pending : list (task S)
}.
Arguments World {S}.
Arguments store {S}.
Arguments trace {S}.
Arguments pending {S}.

Inductive event : Type :=
| Change (i : nat) (v : string)      (* the user edits the i-th input *)
| Click                              (* the user clicks the button *)
| Elapse (i : nat)                   (* the i-th pending callback's timer fires *)
| Settle (i : nat) (p : settlement). (* the i-th pending callback's fetch settles *)

Fixpoint remove_nth {A : Type} (i : nat) (l : list A) : list A :=
  match l, i with
  | [], _ => []
  | _ :: rest, 0 => rest
  | x :: rest, S j => x :: remove_nth j rest
  end.

Section EventLoop.
Context {S : Type}.
Variable App : S -> node (M S unit).

(** Runs a handler or callback to completion on the current state; an
    exception that escapes it is dropped. *)
Definition exec (h : M S unit) (w : world S) (others : list (task S))
  : world S :=
  let r := h (store w) in
  World (next r) (trace w ++ emitted r) (others ++ scheduled r).

(** User events go to the tree rendered from the current state; a disabled
    button does not receive clicks. *)
Definition step (w : world S) (ev : event) : world S :=
  match ev with
  | Change i v =>
      match nth_error (getElementsByTagName "input" (App (store w))) i with
      | Some input =>
          match get_onChange (props_of input) with
          | Some h => exec (h v) w (pending w)
          | None => w
          end
      | None => w
      end
  | Click =>
      match getElementsByTagName "button" (App (store w)) with
      | button :: _ =>
          if get_disabled (props_of button) then w
          else match get_onClick (props_of button) with
               | Some h => exec h w (pending w)
               | None => w
               end
      | [] => w
      end
  | Elapse i =>
      match nth_error (pending w) i with
      | Some (Timer _ callback) => exec callback w (remove_nth i (pending w))
      | _ => w
      end
  | Settle i p =>
      match nth_error (pending w) i with
      | Some (Awaiting _ _ resume) =>
          exec (resume p) w (remove_nth i (pending w))
      | _ => w
      end
  end.

Definition run (w : world S) (evs : list event) : world S :=
  fold_left step evs w.

(** What the user sees in the i-th input. *)
Definition displayed (i : nat) (w : world S) : option string :=
  match nth_error (getElementsByTagName "input" (App (store w))) i with
  | Some input => get_value (props_of input)
  | None => None
  end.

End EventLoop.

(** ** The component *)

Record AuditResult : Type := {
  directories : list string;
  missing : list string;
  aiMention : bool;
  recommendations : list string
}.

(** *** First revision: two fields, timer *)

Module Simple.

Record state : Type := {
  business : string;
  location : string;
  results : option AuditResult;
  loading : bool
}.

(** The arguments of the [useState] calls. *)
Definition initial : state :=
  {| business := ""; location := ""; results := None; loading := false |}.

Definition setBusiness (v : string) : M state unit :=
  setState (fun s => {| business := v; location := location s;
                        results := results s; loading := loading s |}).

Definition setLocation (v : string) : M state unit :=
  setState (fun s => {| business := business s; location := v;
                        results := results s; loading := loading s |}).

Definition setResults (v : option AuditResult) : M state unit :=
  setState (fun s => {| business := business s; location := location s;
                        results := v; loading := loading s |}).

Definition setLoading (v : bool) : M state unit :=
  setState (fun s => {| business := business s; location := location s;
                        results := results s; loading := v |}).

Definition simulatedResponse : AuditResult :=
  {| directories := ["Google Business"; "Yelp"; "Bing Places"];
     missing := ["Yelp"];
     aiMention := false;
     recommendations :=
       ["Create a Yelp profile with full business details.";
        "Add structured FAQ to your website (schema.org markup).";
        "Get mentioned on local blogs or Reddit threads."] |}.

Definition runAudit : M state unit :=
  setLoading true ;;
  setTimeout (setResults (Some simulatedResponse) ;;
              setLoading false) 1500.

Definition App (s : state) : node (M state unit) :=
  Elem "div" [className "App"]
    ([ Elem "h1" [] [Text "AI Visibility Audit"];
       Elem "input" [type_ "text"; placeholder "Business Name";
                     value_ (business s);
                     onChange (fun v => setBusiness v)] [];
       Elem "input" [type_ "text"; placeholder "Location (e.g. London)";
                     value_ (location s);
                     onChange (fun v => setLocation v)] [];
       Elem "button" [onClick runAudit; disabled (loading s)]
            [Text (if loading s then "Running Audit..." else "Run Audit")] ]
     ++ when (results s) (fun results =>
       Elem "div" [className "results"]
         [ Elem "p" [] [Elem "strong" [] [Text "Directories Found:"];
                        Text " ";
                        Text (JS.join ", " (directories results))];
           Elem "p" [] [Elem "strong" [] [Text "Missing:"];
                        Text " ";
                        Text (JS.join ", " (missing results))];
           Elem "p" [] [Elem "strong" [] [Text "AI Mentioned in Test Prompts:"];
                        Text " ";
                        Text (if aiMention results then "Yes" else "No")];
           Elem "ul" []
                (JS.map (fun rec i => Elem "li" [key i] [Text rec])
                        (recommendations results)) ])).

Definition start : world state := World initial [] [].

End Simple.

(** *** The state and the tree shared by the two five-field revisions

    Both declare the same seven state variables and return the same JSX; they
    differ in [runAudit] only, which the tree takes as a parameter.  A
    rendering passes its own state to [runAudit]: the handler reads the field
    values of the rendering whose button was clicked. *)

Module FiveFields.

Record state : Type := {
  contactName : string;
  phone : string;
  email : string;
  business : string;
  location : string;
  results : option AuditResult;
  loading : bool
}.

Definition initial : state :=
  {| contactName := ""; phone := ""; email := ""; business := "";
     location := ""; results := None; loading := false |}.

Definition setContactName (v : string) : M state unit :=
  setState (fun s => {| contactName := v; phone := phone s; email := email s;
                        business := business s; location := location s;
                        results := results s; loading := loading s |}).

Definition setPhone (v : string) : M state unit :=
  setState (fun s => {| contactName := contactName s; phone := v;
                        email := email s;
                        business := business s; location := location s;
                        results := results s; loading := loading s |}).

Definition setEmail (v : string) : M state unit :=
  setState (fun s => {| contactName := contactName s; phone := phone s;
                        email := v;
                        business := business s; location := location s;
                        results := results s; loading := loading s |}).

Definition setBusiness (v : string) : M state unit :=
  setState (fun s => {| contactName := contactName s; phone := phone s;
                        email := email s;
                        business := v; location := location s;
                        results := results s; loading := loading s |}).

Definition setLocation (v : string) : M state unit :=
  setState (fun s => {| contactName := contactName s; phone := phone s;
                        email := email s;
                        business := business s; location := v;
                        results := results s; loading := loading s |}).

Definition setResults (v : option AuditResult) : M state unit :=
  setState (fun s => {| contactName := contactName s; phone := phone s;
                        email := email s;
                        business := business s; location := location s;
                        results := v; loading := loading s |}).

Definition setLoading (v : bool) : M state unit :=
  setState (fun s => {| contactName := contactName s; phone := phone s;
                        email := email s;
                        business := business s; location := location s;
                        results := results s; loading := v |}).

Section Render.
Variable runAudit : state -> M state unit.

Definition App (s : state) : node (M state unit) :=
  Elem "div" [className "App"]
    ([ Elem "h1" [] [Text "AI Visibility Audit"];
       Elem "p" [] [Text "Find out if your business shows up in AI tools like ChatGPT, Bing, and Google."];
       Elem "input" [type_ "text"; placeholder "Your Full Name";
                     value_ (contactName s);
                     onChange (fun v => setContactName v)] [];
       Elem "input" [type_ "tel"; placeholder "Phone Number";
                     value_ (phone s);
                     onChange (fun v => setPhone v)] [];
       Elem "input" [type_ "email"; placeholder "Email Address";
                     value_ (email s);
                     onChange (fun v => setEmail v)] [];
       Elem "input" [type_ "text";
                     placeholder "Business Name (e.g. Elena’s Café)";
                     value_ (business s);
                     onChange (fun v => setBusiness v)] [];
       Elem "input" [type_ "text";
                     placeholder "Location (e.g. London, SW7)";
                     value_ (location s);
                     onChange (fun v => setLocation v)] [];
       Elem "button" [onClick (runAudit s); disabled (loading s)]
            [Text (if loading s then "Running Audit..."
                   else "Run Free AI Audit")] ]
     ++ when (results s) (fun results =>
       Elem "div" [className "results"]
         [ Elem "h2" [] [Text "Audit Results"];
           Elem "p" [] [Elem "strong" [] [Text "Directories Found:"];
                        Text " ";
                        Text (JS.join ", " (directories results))];
           Elem "p" [] [Elem "strong" [] [Text "Missing Listings:"];
                        Text " ";
                        Text (JS.join ", " (missing results))];
           Elem "p" [] [Elem "strong" [] [Text "AI Mentions Detected:"];
                        Text " ";
                        Text (if aiMention results then "Yes" else "No")];
           Elem "ul" []
                (JS.map (fun rec i => Elem "li" [key i] [Text rec])
                        (recommendations results)) ])).
End Render.

Definition start : world state := World initial [] [].

(** The five inputs, named by the state variable they edit, with their
    position in the document. *)
Inductive field : Type := Name | Phone | Email | Business | Location.

Definition position (f : field) : nat :=
  match f with
  | Name => 0 | Phone => 1 | Email => 2 | Business => 3 | Location => 4
  end.

Definition get (f : field) (s : state) : string :=
  match f with
  | Name => contactName s
  | Phone => phone s
  | Email => email s
  | Business => business s
  | Location => location s
  end.

Definition setter (f : field) : string -> M state unit :=
  match f with
  | Name => setContactName
  | Phone => setPhone
  | Email => setEmail
  | Business => setBusiness
  | Location => setLocation
  end.

Definition field_eqb (f g : field) : bool :=
  Nat.eqb (position f) (position g).

End FiveFields.

(** *** Second revision: presence check, console log, timer *)

Module Validating.
Import FiveFields.

Definition simulatedResponse : AuditResult :=
  {| directories := ["Google Business"; "Yelp"; "Bing Places"];
     missing := ["Yelp"];
     aiMention := false;
     recommendations :=
       ["Create a Yelp profile with full business details.";
        "Add structured FAQ to your website (schema.org markup).";
        "Get mentioned on local blogs or Reddit threads."] |}.

Definition runAudit (s : state) : M state unit :=
  if JS.not (contactName s) || JS.not (phone s) || JS.not (email s)
     || JS.not (business s) || JS.not (location s)
  then
    alert "Please fill in all fields before running the audit."
  else
    setLoading true ;;
    console_log "Audit submitted:"
      [("contactName", contactName s); ("phone", phone s);
       ("email", email s); ("business", business s);
       ("location", location s)] ;;
    setTimeout (setResults (Some simulatedResponse) ;;
                setLoading false) 1500.

Definition App : state -> node (M state unit) := FiveFields.App runAudit.

End Validating.

(** *** Third revision: awaited POST to a webhook

    [runAudit] is an async function.  Up to [await] it runs inside the click
    handler; nothing in the [try] block before the suspension can throw, so
    the block is entered when the promise settles, where [await] either
    yields the response or throws the rejection. *)

Module Webhook.
Import FiveFields.

Definition simulatedResponse : AuditResult :=
  {| directories := ["Google Business"; "Yelp"; "Bing Places"];
     missing := ["Yelp"];
     aiMention := false;
     recommendations :=
       ["Create a Yelp profile with full business details.";
        "Add structured FAQ to your website (schema.org markup).";
        "Get mentioned on local blogs or Reddit threads."] |}.

Definition url : string :=
  "https://hook.eu2.make.com/oro7fxpewgxa31b8ke1aofxol60129xo".

Definition runAudit (s : state) : M state unit :=
  setLoading true ;;
  await_fetch url
    {| method := "POST";
       headers := [("Content-Type", "application/json")];
       body := JS.JSON_stringify
                 [("name", contactName s); ("phone", phone s);
                  ("email", email s); ("business", business s);
                  ("location", location s)] |}
    (fun promise =>
       try_catch_finally
         (_ <- settled promise ;;
          console_log "Audit submitted:"
            [("contactName", contactName s); ("phone", phone s);
             ("email", email s); ("business", business s);
             ("location", location s)] ;;
          setResults (Some simulatedResponse))
         (fun error => console_error "Error submitting to webhook:" error)
         (setLoading false)).

Definition App : state -> node (M state unit) := FiveFields.App runAudit.

End Webhook.

(** ** Vocabulary of the statements *)

(** Events that come from the user, as opposed to the browser resuming a
    pending callback. *)
Definition from_user (ev : event) : bool :=
  match ev with
  | Change _ _ | Click => true
  | Elapse _ | Settle _ _ => false
  end.

(** The event resumes one of the callbacks pending in [w]. *)
Definition resumes {S : Type} (w : world S) (ev : event) : bool :=
  match ev with
  | Elapse i =>
      match nth_error (pending w) i with
      | Some (Timer _ _) => true
      | _ => false
      end
  | Settle i _ =>
      match nth_error (pending w) i with
      | Some (Awaiting _ _ _) => true
      | _ => false
      end
  | Change _ _ | Click => false
  end.

Definition is_alert (e : io) : bool :=
  match e with Alert _ => true | _ => false end.

Definition is_fetch (e : io) : bool :=
  match e with Fetch _ _ => true | _ => false end.

Definition is_console (e : io) : bool :=
  match e with ConsoleLog _ _ | ConsoleError _ _ => true | _ => false end.

(** A field-update operation: which field, and the text typed into it. *)
Definition update : Type := FiveFields.field * string.

Definition change_of (u : update) : event :=
  Change (FiveFields.position (fst u)) (snd u).

(** The value given by the last update of field [f] in the sequence. *)
Definition latest (f : FiveFields.field) (us : list update) : option string :=
  option_map snd (find (fun u => FiveFields.field_eqb (fst u) f) (rev us)).

(** All five fields hold a non-empty string. *)
Definition populated (s : FiveFields.state) : Prop :=
  forall f, FiveFields.get f s <> "".

(** The three revisions wait on different things. *)
Definition is_timer_1500 {S : Type} (t : task S) : Prop :=
  exists callback, t = Timer 1500 callback.

Definition is_webhook_post {S : Type} (t : task S) : Prop :=
  exists options resume,
    t = Awaiting "https://hook.eu2.make.com/oro7fxpewgxa31b8ke1aofxol60129xo"
                 options resume
    /\ method options = "POST".

(** [loading] is true exactly while one suspension of the given kind is
    pending, in every world reachable from [start], and from such a world the
    only events that clear it are those that resume the suspension. *)
Definition loading_brackets_suspension {S : Type} (App : S -> node (M S unit))
           (loading : S -> bool) (start : world S) (kind : task S -> Prop)
  : Prop :=
  forall evs,
    let w := run App start evs in
    (loading (store w) = true <-> exists t, pending w = [t] /\ kind t)
    /\ (loading (store w) = false <-> pending w = [])
    /\ forall ev,
         loading (store w) = true ->
         (loading (store (step App w ev)) = false <-> resumes w ev = true).

(** A pending callback that, whenever it runs, leaves [loading] false and
    registers nothing further. *)
Definition clears_loading {S : Type} (loading : S -> bool) (t : task S)
  : Prop :=
  match t with
  | Timer _ callback =>
      forall s, loading (next (callback s)) = false
                /\ scheduled (callback s) = []
  | Awaiting _ _ resume =>
      forall p s, loading (next (resume p s)) = false
                  /\ scheduled (resume p s) = []
  end.

Definition loading_invariant {S : Type} (loading : S -> bool)
           (kind : task S -> Prop) (w : world S) : Prop :=
  (loading (store w) = false /\ pending w = [])
  \/ (loading (store w) = true
      /\ exists t, pending w = [t] /\ kind t /\ clears_loading loading t).

(** What the user reads of an [AuditResult] in a results panel: one paragraph
    per field, a label followed by the value, and one list item per
    recommendation, keyed by position. *)
Definition shows_result {H : Type} (labels : string * string * string)
           (panel : node H) (r : AuditResult) : Prop :=
  List.map textContent (getElementsByTagName "p" panel)
  = [ fst (fst labels) ++ " " ++ JS.join ", " (directories r);
      snd (fst labels) ++ " " ++ JS.join ", " (missing r);
      snd labels ++ " " ++ (if aiMention r then "Yes" else "No") ]
  /\ List.map textContent (getElementsByTagName "li" panel)
     = recommendations r
  /\ List.map (fun li => get_key (props_of li))
              (getElementsByTagName "li" panel)
     = List.map Some (seq 0 (List.length (recommendations r))).

(** The tree holds a results panel exactly when [results] is not null, and
    the panel shows that result. *)
Definition renders_results {S : Type} (App : S -> node (M S unit))
           (results : S -> option AuditResult)
           (labels : string * string * string) : Prop :=
  forall s,
    match results s with
    | None => getElementsByClassName "results" (App s) = []
    | Some r =>
        exists panel,
          getElementsByClassName "results" (App s) = [panel]
          /\ shows_result labels panel r
    end.

(** A pending callback that, whenever it runs, either leaves [results] alone
    or replaces it with [c], and registers nothing further. *)
Definition writes_only {S : Type} (results : S -> option AuditResult)
           (c : AuditResult) (t : task S) : Prop :=
  match t with
  | Timer _ callback =>
      forall s, (results (next (callback s)) = results s
                 \/ results (next (callback s)) = Some c)
                /\ scheduled (callback s) = []
  | Awaiting _ _ resume =>
      forall p s, (results (next (resume p s)) = results s
                   \/ results (next (resume p s)) = Some c)
                  /\ scheduled (resume p s) = []
  end.

Definition results_invariant {S : Type} (results : S -> option AuditResult)
           (c : AuditResult) (w : world S) : Prop :=
  (results (store w) = None \/ results (store w) = Some c)
  /\ Forall (writes_only results c) (pending w).

(** In every world reachable from [start], [results] is null or is [c]. *)
Definition result_is_constant {S : Type} (App : S -> node (M S unit))
           (results : S -> option AuditResult) (start : world S)
           (c : AuditResult) : Prop :=
  forall evs,
    results (store (run App start evs)) = None
    \/ results (store (run App start evs)) = Some c.

(** Two worlds show the same results panel. *)
Definition same_panel {S : Type} (App : S -> node (M S unit))
           (w1 w2 : world S) : Prop :=
  getElementsByClassName "results" (App (store w1))
  = getElementsByClassName "results" (App (store w2)).

(** ** Vocabulary of the further properties *)

Fixpoint get_type {H : Type} (props : list (prop H)) : option string :=
  match props with
  | [] => None
  | type_ t :: _ => Some t
  | _ :: rest => get_type rest
  end.

(** The type and the value of an input. *)
Definition control {H : Type} (n : node H) : option string * option string :=
  (get_type (props_of n), get_value (props_of n)).

(** For each button of a tree, whether it is disabled, and its label. *)
Definition button_view {H : Type} (root : node H) : list (bool * string) :=
  List.map (fun b => (get_disabled (props_of b), textContent b))
           (getElementsByTagName "button" root).

Definition is_change (ev : event) : bool :=
  match ev with Change _ _ => true | _ => false end.

Definition is_console_log (e : io) : bool :=
  match e with ConsoleLog _ _ => true | _ => false end.

Definition is_console_error (e : io) : bool :=
  match e with ConsoleError _ _ => true | _ => false end.

(** An edit of the input at a position, and the value given by the last
    edit at position [i] in a sequence. *)
Definition change_at (u : nat * string) : event :=
  Change (fst u) (snd u).

Definition latest_at (i : nat) (us : list (nat * string)) : option string :=
  option_map snd (find (fun u => Nat.eqb (fst u) i) (rev us)).

(** The values of the fields of a form, in document order. *)
Definition simple_fields (s : Simple.state) : list string :=
  [Simple.business s; Simple.location s].

Definition form_fields (s : FiveFields.state) : list string :=
  [FiveFields.contactName s; FiveFields.phone s; FiveFields.email s;
   FiveFields.business s; FiveFields.location s].

(** A property of every run of a pending callback. *)
Definition callback_satisfies {S : Type}
           (Q : S -> result (task S) S unit -> Prop) (t : task S) : Prop :=
  match t with
  | Timer _ callback => forall s, Q s (callback s)
  | Awaiting _ _ resume => forall p s, Q s (resume p s)
  end.

(** What a resumed callback does in these components: it registers nothing,
    leaves the fields alone, leaves [results] alone or sets it to [c], clears
    [loading], and performs only I/O of the [allowed] kinds. *)
Definition callback_ok {S : Type} (fields : S -> list string)
           (results : S -> option AuditResult) (loading : S -> bool)
           (c : AuditResult) (allowed : io -> bool)
           (s : S) (r : result (task S) S unit) : Prop :=
  scheduled r = []
  /\ fields (next r) = fields s
  /\ (results (next r) = results s \/ results (next r) = Some c)
  /\ loading (next r) = false
  /\ forallb allowed (emitted r) = true.

(** What a handler of a user event does: it leaves [results] alone, performs
    only I/O of the [allowed] kinds, and registers only such callbacks. *)
Definition handler_ok {S : Type} (fields : S -> list string)
           (results : S -> option AuditResult) (loading : S -> bool)
           (c : AuditResult) (allowed : io -> bool)
           (s : S) (r : result (task S) S unit) : Prop :=
  results (next r) = results s
  /\ forallb allowed (emitted r) = true
  /\ Forall (callback_satisfies (callback_ok fields results loading c allowed))
            (scheduled r).

(** The I/O each revision is seen to perform. *)
Definition simple_io (e : io) : bool := false.

Definition validating_io (e : io) : bool :=
  is_alert e || is_console_log e.

Definition webhook_io (e : io) : bool :=
  is_fetch e || is_console_log e || is_console_error e.

(** [results] stays null, and no panel is rendered, as long as only user
    events have happened. *)
Definition null_until_resumed {S : Type} (App : S -> node (M S unit))
           (results : S -> option AuditResult) (start : world S) : Prop :=
  forall evs,
    Forall (fun ev => from_user ev = true) evs ->
    results (store (run App start evs)) = None
    /\ getElementsByClassName "results" (App (store (run App start evs))) = [].

(** Once [results] is [c] in a reachable world, it is [c] ever after. *)
Definition results_stay {S : Type} (App : S -> node (M S unit))
           (results : S -> option AuditResult) (start : world S)
           (c : AuditResult) : Prop :=
  forall evs1 evs2,
    results (store (run App start evs1)) = Some c ->
    results (store (run App start (evs1 ++ evs2))) = Some c.

(** From a reachable world, an event that is not a field edit leaves the
    field values as they were. *)
Definition only_edits_change_fields {S : Type} (App : S -> node (M S unit))
           (fields : S -> list string) (start : world S) : Prop :=
  forall evs ev,
    is_change ev = false ->
    fields (store (step App (run App start evs) ev))
    = fields (store (run App start evs)).

(** In every reachable world the trace holds only I/O of the given kinds. *)
Definition performs_only {S : Type} (App : S -> node (M S unit))
           (start : world S) (allowed : io -> bool) : Prop :=
  forall evs, forallb allowed (trace (run App start evs)) = true.

(** In every reachable world the button is enabled and carries [label] when
    nothing is pending, and is disabled and reads Running Audit... otherwise. *)
Definition button_tracks_pending {S : Type} (App : S -> node (M S unit))
           (start : world S) (label : string) : Prop :=
  forall evs,
    button_view (App (store (run App start evs)))
    = match pending (run App start evs) with
      | [] => [(false, label)]
      | _ :: _ => [(true, "Running Audit...")]
      end.

(** The tree holds one results panel, whose paragraphs and list items read
    as given. *)
Definition panel_reads {H : Type} (root : node H)
           (paragraphs items : list string) : Prop :=
  exists panel,
    getElementsByClassName "results" root = [panel]
    /\ List.map textContent (getElementsByTagName "p" panel) = paragraphs
    /\ List.map textContent (getElementsByTagName "li" panel) = items.

(** * Facts *)

(** ** Strings and JSON *)

Lemma append_assoc (a b c : string) : (a ++ b) ++ c = a ++ (b ++ c).
Proof. induction a as [|x a IH]; cbn; [reflexivity|]. rewrite IH. reflexivity. Qed.

Lemma length_append (a b : string) :
  String.length (a ++ b) = String.length a + String.length b.
Proof. induction a as [|x a IH]; cbn; [reflexivity|]. rewrite IH. reflexivity. Qed.

Lemma read_quote_char (c : ascii) (s : string) :
  JS.read_chars (JS.quote_char c ++ s) = JS.prepend c (JS.read_chars s).
Proof. destruct c as [[] [] [] [] [] [] [] []]; reflexivity. Qed.

Lemma read_quote_chars (s rest : string) :
  JS.read_chars (JS.quote_chars s ++ String JS.dquote rest) = Some (s, rest).
Proof.
  induction s as [|c s IH]; [reflexivity|].
  cbn [JS.quote_chars]. rewrite append_assoc, read_quote_char, IH.
  reflexivity.
Qed.

Lemma read_QuoteJSONString (s rest : string) :
  JS.read_string (JS.QuoteJSONString s ++ rest) = Some (s, rest).
Proof.
  unfold JS.QuoteJSONString. cbn [append JS.read_string].
  rewrite append_assoc. cbn [append]. apply read_quote_chars.
Qed.

Lemma read_member (kv : string * string) (rest : string) :
  JS.read_string (JS.member kv ++ rest)
  = Some (fst kv, String ":" (JS.QuoteJSONString (snd kv) ++ rest)).
Proof.
  unfold JS.member. rewrite append_assoc, read_QuoteJSONString.
  cbn [append]. reflexivity.
Qed.

Lemma read_members_join (o : JS.object) :
  o <> [] ->
  forall fuel,
    List.length o <= fuel ->
    JS.read_members fuel (JS.join "," (List.map JS.member o) ++ "}") = Some o.
Proof.
  induction o as [|[k v] o IH]; [congruence|]. intros _ fuel Hf.
  destruct fuel as [|fuel]; [cbn in Hf; lia|].
  destruct o as [|kv o].
  - cbn [List.map JS.join JS.read_members].
    rewrite read_member. cbn [fst snd].
    rewrite read_QuoteJSONString. reflexivity.
  - change (JS.join "," (List.map JS.member ((k, v) :: kv :: o)))
      with (JS.member (k, v) ++ "," ++ JS.join "," (List.map JS.member (kv :: o))).
    cbn [JS.read_members].
    rewrite append_assoc, read_member. cbn [fst snd].
    rewrite read_QuoteJSONString. cbn [append].
    rewrite IH; [reflexivity|congruence|cbn in Hf |- *; lia].
Qed.

Lemma length_join_members (o : JS.object) :
  List.length o <= String.length (JS.join "," (List.map JS.member o)).
Proof.
  induction o as [|kv o IH]; [cbn; lia|].
  destruct o as [|kv' o].
  - cbn. lia.
  - change (JS.join "," (List.map JS.member (kv :: kv' :: o)))
      with (JS.member kv ++ "," ++ JS.join "," (List.map JS.member (kv' :: o))).
    rewrite length_append. cbn [append String.length].
    cbn [List.length] in IH |- *. lia.
Qed.

Lemma JSON_parse_members (x : string) :
  JS.JSON_parse (String "{" (String JS.dquote x))
  = JS.read_members (String.length (String JS.dquote x)) (String JS.dquote x).
Proof. reflexivity. Qed.

Lemma JSON_parse_stringify (o : JS.object) :
  JS.JSON_parse (JS.JSON_stringify o) = Some o.
Proof.
  destruct o as [|kv o]; [reflexivity|].
  unfold JS.JSON_stringify. cbn [append].
  assert (Hq : exists x, JS.join "," (List.map JS.member (kv :: o)) ++ "}"
                         = String JS.dquote x).
  { destruct o; cbn; eexists; reflexivity. }
  destruct Hq as [x Hx].
  rewrite Hx, JSON_parse_members, <- Hx.
  apply read_members_join; [congruence|].
  rewrite length_append. pose proof (length_join_members (kv :: o)). lia.
Qed.

(** ** Rendered trees *)

Section DomFacts.
Context {H : Type}.

Lemma filter_descendants_items (P : node H -> bool) (l : list string) :
  (forall s, P (Text s) = false) ->
  forall i,
    filter P (flat_map descendants
                (JS.map_from i (fun rec i => Elem "li" [key i] [Text rec]) l))
    = filter P (JS.map_from i (fun rec i => Elem "li" [key i] [Text rec]) l).
Proof.
  intros HP. induction l as [|rec l IH]; intros i; [reflexivity|].
  cbn [JS.map_from flat_map descendants app filter].
  rewrite HP, IH. reflexivity.
Qed.

Lemma items_by_tag (t : string) (l : list string) (i : nat) :
  filter (has_tag t)
         (JS.map_from i (fun rec i => @Elem H "li" [key i] [Text rec]) l)
  = if String.eqb "li" t
    then JS.map_from i (fun rec i => Elem "li" [key i] [Text rec]) l
    else [].
Proof.
  revert i. induction l as [|rec l IH]; intros i.
  - destruct (String.eqb "li" t); reflexivity.
  - cbn [JS.map_from filter has_tag]. rewrite IH.
    destruct (String.eqb "li" t); reflexivity.
Qed.

Lemma items_by_class (c : string) (l : list string) (i : nat) :
  filter (has_class c)
         (JS.map_from i (fun rec i => @Elem H "li" [key i] [Text rec]) l)
  = [].
Proof.
  revert i. induction l as [|rec l IH]; intros i; [reflexivity|].
  cbn [JS.map_from filter]. rewrite IH. reflexivity.
Qed.

Lemma items_text (l : list string) (i : nat) :
  List.map textContent
           (JS.map_from i (fun rec i => @Elem H "li" [key i] [Text rec]) l)
  = l.
Proof.
  revert i. induction l as [|rec l IH]; intros i; [reflexivity|].
  cbn [JS.map_from List.map]. rewrite IH. reflexivity.
Qed.

Lemma items_keys (l : list string) (i : nat) :
  List.map (fun n => get_key (props_of n))
           (JS.map_from i (fun rec i => @Elem H "li" [key i] [Text rec]) l)
  = List.map Some (seq i (List.length l)).
Proof.
  revert i. induction l as [|rec l IH]; intros i; [reflexivity|].
  cbn [JS.map_from List.map List.length seq]. rewrite IH. reflexivity.
Qed.

Lemma by_tag_items (t : string) (l : list string) :
  String.eqb "li" t = false ->
  filter (has_tag t)
         (flat_map descendants
            (JS.map (fun rec i => @Elem H "li" [key i] [Text rec]) l)) = [].
Proof.
  intros Ht. unfold JS.map.
  rewrite filter_descendants_items by reflexivity.
  rewrite items_by_tag, Ht. reflexivity.
Qed.

Lemma by_class_items (c : string) (l : list string) :
  filter (has_class c)
         (flat_map descendants
            (JS.map (fun rec i => @Elem H "li" [key i] [Text rec]) l)) = [].
Proof.
  unfold JS.map. rewrite filter_descendants_items by reflexivity.
  apply items_by_class.
Qed.

End DomFacts.

Section FiveFieldsTree.
Import FiveFields.
Variable runAudit : state -> M state unit.

Lemma inputs_App (s : state) :
  getElementsByTagName "input" (App runAudit s) =
  [ Elem "input" [type_ "text"; placeholder "Your Full Name";
                  value_ (contactName s);
                  onChange (fun v => setContactName v)] [];
    Elem "input" [type_ "tel"; placeholder "Phone Number";
                  value_ (phone s);
                  onChange (fun v => setPhone v)] [];
    Elem "input" [type_ "email"; placeholder "Email Address";
                  value_ (email s);
                  onChange (fun v => setEmail v)] [];
    Elem "input" [type_ "text";
                  placeholder "Business Name (e.g. Elena’s Café)";
                  value_ (business s);
                  onChange (fun v => setBusiness v)] [];
    Elem "input" [type_ "text";
                  placeholder "Location (e.g. London, SW7)";
                  value_ (location s);
                  onChange (fun v => setLocation v)] [] ].
Proof.
  unfold getElementsByTagName, App, when.
  destruct (results s) as [r|]; [|reflexivity].
  cbn [descendants flat_map app].
  repeat (rewrite ?filter_app; cbn [filter has_tag String.eqb Ascii.eqb Bool.eqb]).
  rewrite by_tag_items by reflexivity. reflexivity.
Qed.

Lemma buttons_App (s : state) :
  getElementsByTagName "button" (App runAudit s) =
  [ Elem "button" [onClick (runAudit s); disabled (loading s)]
         [Text (if loading s then "Running Audit..."
                else "Run Free AI Audit")] ].
Proof.
  unfold getElementsByTagName, App, when.
  destruct (results s) as [r|]; [|reflexivity].
  cbn [descendants flat_map app].
  repeat (rewrite ?filter_app; cbn [filter has_tag String.eqb Ascii.eqb Bool.eqb]).
  rewrite by_tag_items by reflexivity. reflexivity.
Qed.
End FiveFieldsTree.

(** ** The event loop *)

Lemma run_app {S : Type} (App : S -> node (M S unit)) (w : world S)
      (evs1 evs2 : list event) :
  run App w (evs1 ++ evs2) = run App (run App w evs1) evs2.
Proof. apply fold_left_app. Qed.

Lemma run_snoc {S : Type} (App : S -> node (M S unit)) (w : world S)
      (evs : list event) (ev : event) :
  run App w (evs ++ [ev]) = step App (run App w evs) ev.
Proof. rewrite run_app. reflexivity. Qed.

Section LoadingInvariant.
Context {S : Type}.
Variable App : S -> node (M S unit).
Variable loading : S -> bool.
Variable kind : task S -> Prop.

Hypothesis change_keeps : forall w i v,
  loading (store (step App w (Change i v))) = loading (store w)
  /\ pending (step App w (Change i v)) = pending w.
Hypothesis click_disabled : forall w,
  loading (store w) = true -> step App w Click = w.
Hypothesis click_enabled : forall w,
  loading (store w) = false ->
  (loading (store (step App w Click)) = false
   /\ pending (step App w Click) = pending w)
  \/ (loading (store (step App w Click)) = true
      /\ exists t, pending (step App w Click) = (pending w ++ [t])%list
                   /\ kind t /\ clears_loading loading t).

Lemma step_invariant (w : world S) (ev : event) :
  loading_invariant loading kind w ->
  loading_invariant loading kind (step App w ev).
Proof.
  intros [[Hl Hp]|[Hl [t [Hp [Hk Hc]]]]].
  - destruct ev as [i v| |i|i p].
    + destruct (change_keeps w i v) as [El Ep]. left.
      rewrite El, Ep. auto.
    + destruct (click_enabled w Hl) as [[El Ep]|[El [t [Ep Ht]]]].
      * left. rewrite Ep. auto.
      * right. split; [exact El|]. exists t. rewrite Ep, Hp. auto.
    + cbn [step]. rewrite Hp. destruct i; cbn [nth_error]; left; auto.
    + cbn [step]. rewrite Hp. destruct i; cbn [nth_error]; left; auto.
  - destruct ev as [i v| |i|i p].
    + destruct (change_keeps w i v) as [El Ep]. right.
      rewrite El, Ep. eauto.
    + rewrite (click_disabled w Hl). right. eauto.
    + cbn [step]. rewrite Hp.
      destruct i as [|i]; cbn [nth_error].
      * destruct t as [ms cb|res opts k].
        -- left. cbn [exec store pending remove_nth app].
           destruct (Hc (store w)) as [E1 E2]. rewrite E2. auto.
        -- right. eauto.
      * destruct i; cbn [nth_error]; right; eauto.
    + cbn [step]. rewrite Hp.
      destruct i as [|i]; cbn [nth_error].
      * destruct t as [ms cb|res opts k].
        -- right. eauto.
        -- left. cbn [exec store pending remove_nth app].
           destruct (Hc p (store w)) as [E1 E2]. rewrite E2. auto.
      * destruct i; cbn [nth_error]; right; eauto.
Qed.

Lemma run_invariant (evs : list event) (w : world S) :
  loading_invariant loading kind w ->
  loading_invariant loading kind (run App w evs).
Proof.
  revert w. induction evs as [|ev evs IH]; intros w Hw; [exact Hw|].
  cbn [run fold_left]. apply IH, step_invariant, Hw.
Qed.

Lemma invariant_brackets (start : world S) :
  loading_invariant loading kind start ->
  loading_brackets_suspension App loading start kind.
Proof.
  intros Hs evs w.
  pose proof (run_invariant evs start Hs) as Hw. fold w in Hw.
  clearbody w. split; [|split].
  - destruct Hw as [[Hl Hp]|[Hl [t [Hp [Hk Hc]]]]]; split.
    + congruence.
    + intros [t [Ht _]]. congruence.
    + eauto.
    + auto.
  - destruct Hw as [[Hl Hp]|[Hl [t [Hp [Hk Hc]]]]]; split; auto; congruence.
  - intros ev Hl.
    destruct Hw as [[Hl' Hp]|[_ [t [Hp [Hk Hc]]]]]; [congruence|].
    destruct ev as [i v| |i|i p].
    + destruct (change_keeps w i v) as [El _]. rewrite El. cbn.
      split; congruence.
    + rewrite (click_disabled w Hl). cbn. split; congruence.
    + cbn [step resumes]. rewrite Hp.
      destruct i as [|i]; cbn [nth_error].
      * destruct t as [ms cb|res opts k].
        -- cbn [exec store]. destruct (Hc (store w)) as [E1 _].
           split; auto.
        -- split; congruence.
      * destruct i; cbn [nth_error]; split; congruence.
    + cbn [step resumes]. rewrite Hp.
      destruct i as [|i]; cbn [nth_error].
      * destruct t as [ms cb|res opts k].
        -- split; congruence.
        -- cbn [exec store]. destruct (Hc p (store w)) as [E1 _].
           split; auto.
      * destruct i; cbn [nth_error]; split; congruence.
Qed.

End LoadingInvariant.

(** ** The five-field form *)

Section FiveFieldsSteps.
Import FiveFields.
Variable runAudit : state -> M state unit.

Lemma step_Change_field (w : world state) (f : field) (v : string) :
  step (App runAudit) w (Change (position f) v)
  = World (next (setter f v (store w))) (trace w) (pending w).
Proof.
  unfold step. rewrite inputs_App.
  destruct f; unfold exec; cbn; rewrite !app_nil_r; reflexivity.
Qed.

Lemma step_Change_elsewhere (w : world state) (i : nat) (v : string) :
  5 <= i -> step (App runAudit) w (Change i v) = w.
Proof.
  intros Hi. unfold step. rewrite inputs_App.
  do 5 (destruct i as [|i]; [lia|]). cbn [nth_error].
  destruct i; reflexivity.
Qed.

Lemma position_cases (i : nat) : (exists f, i = position f) \/ 5 <= i.
Proof.
  destruct i as [|[|[|[|[|i]]]]];
    [left; exists Name|left; exists Phone|left; exists Email
    |left; exists Business|left; exists Location|right; lia];
    reflexivity.
Qed.

Lemma step_Click (w : world state) :
  step (App runAudit) w Click
  = if loading (store w) then w
    else exec (runAudit (store w)) w (pending w).
Proof. unfold step. rewrite buttons_App. reflexivity. Qed.

Lemma displayed_field (w : world state) (f : field) :
  displayed (App runAudit) (position f) w = Some (get f (store w)).
Proof. unfold displayed. rewrite inputs_App. destruct f; reflexivity. Qed.

Lemma get_setter (f g : field) (v : string) (s : state) :
  get g (next (setter f v s)) = if field_eqb f g then v else get g s.
Proof. destruct f, g; reflexivity. Qed.

Lemma results_setter (f : field) (v : string) (s : state) :
  results (next (setter f v s)) = results s.
Proof. destruct f; reflexivity. Qed.

Lemma loading_setter (f : field) (v : string) (s : state) :
  loading (next (setter f v s)) = loading s.
Proof. destruct f; reflexivity. Qed.

Lemma change_keeps_loading (w : world state) (i : nat) (v : string) :
  loading (store (step (App runAudit) w (Change i v))) = loading (store w)
  /\ pending (step (App runAudit) w (Change i v)) = pending w.
Proof.
  destruct (position_cases i) as [[f ->]|Hi].
  - rewrite step_Change_field. cbn [store pending].
    rewrite loading_setter. auto.
  - rewrite step_Change_elsewhere by exact Hi. auto.
Qed.

Lemma click_while_loading (w : world state) :
  loading (store w) = true -> step (App runAudit) w Click = w.
Proof. intros Hl. rewrite step_Click, Hl. reflexivity. Qed.

Lemma field_eqb_eq (f g : field) : field_eqb f g = true <-> f = g.
Proof. destruct f, g; cbn; split; congruence. Qed.

End FiveFieldsSteps.

Lemma not_true_iff (s : string) : JS.not s = true <-> s = "".
Proof. destruct s; cbn; split; congruence. Qed.

Lemma not_false_iff (s : string) : JS.not s = false <-> s <> "".
Proof. destruct s; cbn; split; congruence. Qed.

Lemma some_field_empty_iff (s : FiveFields.state) :
  JS.not (FiveFields.contactName s) || JS.not (FiveFields.phone s)
  || JS.not (FiveFields.email s) || JS.not (FiveFields.business s)
  || JS.not (FiveFields.location s) = true
  <-> exists f, FiveFields.get f s = "".
Proof.
  rewrite !orb_true_iff, !not_true_iff. split.
  - intros [[[[H|H]|H]|H]|H];
      [exists FiveFields.Name|exists FiveFields.Phone|exists FiveFields.Email
      |exists FiveFields.Business|exists FiveFields.Location]; exact H.
  - intros [[] H]; cbn in H; tauto.
Qed.

Lemma populated_iff (s : FiveFields.state) :
  JS.not (FiveFields.contactName s) || JS.not (FiveFields.phone s)
  || JS.not (FiveFields.email s) || JS.not (FiveFields.business s)
  || JS.not (FiveFields.location s) = false
  <-> populated s.
Proof.
  rewrite <- not_true_iff_false, some_field_empty_iff. unfold populated.
  split.
  - intros Hn f Hf. apply Hn. exists f. exact Hf.
  - intros Hp [f Hf]. exact (Hp f Hf).
Qed.

(** ** [runAudit], revision by revision *)

Lemma Validating_runAudit_aborts (s s' : FiveFields.state) :
  (exists f, FiveFields.get f s = "") ->
  Validating.runAudit s s'
  = Result (Normal tt) s'
           [Alert "Please fill in all fields before running the audit."] [].
Proof.
  intros He. apply some_field_empty_iff in He.
  unfold Validating.runAudit. rewrite He. reflexivity.
Qed.

Lemma Validating_runAudit_proceeds (s s' : FiveFields.state) :
  populated s ->
  Validating.runAudit s s'
  = Result (Normal tt) (next (FiveFields.setLoading true s'))
           [ConsoleLog "Audit submitted:"
              [("contactName", FiveFields.contactName s);
               ("phone", FiveFields.phone s);
               ("email", FiveFields.email s);
               ("business", FiveFields.business s);
               ("location", FiveFields.location s)]]
           [Timer 1500
              (FiveFields.setResults (Some Validating.simulatedResponse) ;;
               FiveFields.setLoading false)].
Proof.
  intros Hp. apply populated_iff in Hp.
  unfold Validating.runAudit. rewrite Hp. reflexivity.
Qed.

Lemma populated_dec (s : FiveFields.state) :
  populated s \/ exists f, FiveFields.get f s = "".
Proof.
  destruct (JS.not (FiveFields.contactName s) || JS.not (FiveFields.phone s)
            || JS.not (FiveFields.email s) || JS.not (FiveFields.business s)
            || JS.not (FiveFields.location s)) eqn:E.
  - right. apply some_field_empty_iff, E.
  - left. apply populated_iff, E.
Qed.

(** ** [loading] brackets the suspension, revision by revision *)

Lemma Simple_inputs (s : Simple.state) :
  getElementsByTagName "input" (Simple.App s) =
  [ Elem "input" [type_ "text"; placeholder "Business Name";
                  value_ (Simple.business s);
                  onChange (fun v => Simple.setBusiness v)] [];
    Elem "input" [type_ "text"; placeholder "Location (e.g. London)";
                  value_ (Simple.location s);
                  onChange (fun v => Simple.setLocation v)] [] ].
Proof.
  unfold getElementsByTagName, Simple.App, when.
  destruct (Simple.results s) as [r|]; [|reflexivity].
  cbn [descendants flat_map app].
  repeat (rewrite ?filter_app; cbn [filter has_tag String.eqb Ascii.eqb Bool.eqb]).
  rewrite by_tag_items by reflexivity. reflexivity.
Qed.

Lemma Simple_buttons (s : Simple.state) :
  getElementsByTagName "button" (Simple.App s) =
  [ Elem "button" [onClick Simple.runAudit; disabled (Simple.loading s)]
         [Text (if Simple.loading s then "Running Audit..." else "Run Audit")] ].
Proof.
  unfold getElementsByTagName, Simple.App, when.
  destruct (Simple.results s) as [r|]; [|reflexivity].
  cbn [descendants flat_map app].
  repeat (rewrite ?filter_app; cbn [filter has_tag String.eqb Ascii.eqb Bool.eqb]).
  rewrite by_tag_items by reflexivity. reflexivity.
Qed.

Lemma Simple_step_Click (w : world Simple.state) :
  step Simple.App w Click
  = if Simple.loading (store w) then w
    else exec Simple.runAudit w (pending w).
Proof. unfold step. rewrite Simple_buttons. reflexivity. Qed.

Lemma Simple_change_keeps_loading (w : world Simple.state) (i : nat)
      (v : string) :
  Simple.loading (store (step Simple.App w (Change i v)))
  = Simple.loading (store w)
  /\ pending (step Simple.App w (Change i v)) = pending w.
Proof.
  unfold step. rewrite Simple_inputs.
  destruct i as [|[|i]]; cbn; rewrite ?app_nil_r; auto.
  destruct i; cbn; auto.
Qed.

Lemma Simple_brackets :
  loading_brackets_suspension Simple.App Simple.loading Simple.start
                              is_timer_1500.
Proof.
  apply invariant_brackets.
  - apply Simple_change_keeps_loading.
  - intros w Hl. rewrite Simple_step_Click, Hl. reflexivity.
  - intros w Hl. right. rewrite Simple_step_Click, Hl.
    split; [reflexivity|]. eexists. split; [reflexivity|].
    split; [eexists; reflexivity|]. intros s. split; reflexivity.
  - left. split; reflexivity.
Qed.

Lemma Validating_invariant_steps (w : world FiveFields.state) :
  FiveFields.loading (store w) = false ->
  (FiveFields.loading (store (step Validating.App w Click)) = false
   /\ pending (step Validating.App w Click) = pending w)
  \/ (FiveFields.loading (store (step Validating.App w Click)) = true
      /\ exists t, pending (step Validating.App w Click)
                   = (pending w ++ [t])%list
                   /\ is_timer_1500 t
                   /\ clears_loading FiveFields.loading t).
Proof.
  intros Hl. unfold Validating.App. rewrite step_Click, Hl.
  destruct (populated_dec (store w)) as [Hp|He].
  - right. unfold exec. rewrite Validating_runAudit_proceeds by exact Hp.
    split; [reflexivity|]. eexists. split; [reflexivity|].
    split; [eexists; reflexivity|]. intros s. split; reflexivity.
  - left. unfold exec. rewrite Validating_runAudit_aborts by exact He.
    cbn. rewrite app_nil_r. auto.
Qed.

Lemma Validating_brackets :
  loading_brackets_suspension Validating.App FiveFields.loading
                              FiveFields.start is_timer_1500.
Proof.
  apply invariant_brackets.
  - apply change_keeps_loading.
  - apply click_while_loading.
  - apply Validating_invariant_steps.
  - left. split; reflexivity.
Qed.

Lemma Webhook_brackets :
  loading_brackets_suspension Webhook.App FiveFields.loading
                              FiveFields.start is_webhook_post.
Proof.
  apply invariant_brackets.
  - apply change_keeps_loading.
  - apply click_while_loading.
  - intros w Hl. right. unfold Webhook.App. rewrite step_Click, Hl.
    split; [reflexivity|]. eexists. split; [reflexivity|].
    split; [do 2 eexists; split; reflexivity|].
    intros p s. destruct p; split; reflexivity.
  - left. split; reflexivity.
Qed.

(** ** [results] is null or the constant *)

Lemma Forall_remove_nth {A : Type} (P : A -> Prop) (l : list A) (i : nat) :
  Forall P l -> Forall P (remove_nth i l).
Proof.
  intros Hl. revert i. induction Hl as [|x l Hx Hl IH]; intros i.
  - destruct i; constructor.
  - destruct i; cbn; [exact Hl|]. constructor; [exact Hx|apply IH].
Qed.

Lemma Forall_nth_error {A : Type} (P : A -> Prop) (l : list A) (i : nat)
      (x : A) :
  Forall P l -> nth_error l i = Some x -> P x.
Proof.
  intros Hl Hx. apply nth_error_In in Hx.
  rewrite Forall_forall in Hl. apply Hl, Hx.
Qed.

Section ResultsInvariant.
Context {S : Type}.
Variable App : S -> node (M S unit).
Variable results : S -> option AuditResult.
Variable c : AuditResult.

Hypothesis change_keeps : forall w i v,
  results (store (step App w (Change i v))) = results (store w)
  /\ pending (step App w (Change i v)) = pending w.
Hypothesis click_keeps : forall w,
  results (store (step App w Click)) = results (store w)
  /\ exists ts, pending (step App w Click) = (pending w ++ ts)%list
                /\ Forall (writes_only results c) ts.

Lemma step_results_invariant (w : world S) (ev : event) :
  results_invariant results c w ->
  results_invariant results c (step App w ev).
Proof.
  intros [Hr Hp]. destruct ev as [i v| |i|i p].
  - destruct (change_keeps w i v) as [Er Ep]. split; congruence.
  - destruct (click_keeps w) as [Er [ts [Ep Hts]]]. split; [congruence|].
    rewrite Ep. apply Forall_app. auto.
  - cbn [step]. destruct (nth_error (pending w) i) as [t|] eqn:Et;
      [|split; assumption].
    destruct t as [ms cb|res opts k]; [|split; assumption].
    pose proof (Forall_nth_error _ _ _ _ Hp Et) as Ht.
    destruct (Ht (store w)) as [Hcb Hs].
    split; cbn [exec store pending].
    + destruct Hcb as [E|E]; [rewrite E; exact Hr|auto].
    + rewrite Hs, app_nil_r. apply Forall_remove_nth, Hp.
  - cbn [step]. destruct (nth_error (pending w) i) as [t|] eqn:Et;
      [|split; assumption].
    destruct t as [ms cb|res opts k]; [split; assumption|].
    pose proof (Forall_nth_error _ _ _ _ Hp Et) as Ht.
    destruct (Ht p (store w)) as [Hcb Hs].
    split; cbn [exec store pending].
    + destruct Hcb as [E|E]; [rewrite E; exact Hr|auto].
    + rewrite Hs, app_nil_r. apply Forall_remove_nth, Hp.
Qed.

Lemma invariant_constant (start : world S) :
  results_invariant results c start ->
  result_is_constant App results start c.
Proof.
  intros Hs evs.
  enough (H : results_invariant results c (run App start evs))
    by exact (proj1 H).
  revert start Hs. induction evs as [|ev evs IH]; intros w Hw; [exact Hw|].
  cbn [run fold_left]. apply IH, step_results_invariant, Hw.
Qed.
End ResultsInvariant.

Lemma change_keeps_results (runAudit : FiveFields.state -> M FiveFields.state unit)
      (w : world FiveFields.state) (i : nat) (v : string) :
  FiveFields.results (store (step (FiveFields.App runAudit) w (Change i v)))
  = FiveFields.results (store w)
  /\ pending (step (FiveFields.App runAudit) w (Change i v)) = pending w.
Proof.
  destruct (position_cases i) as [[f ->]|Hi].
  - rewrite step_Change_field. cbn [store pending].
    rewrite results_setter. auto.
  - rewrite step_Change_elsewhere by exact Hi. auto.
Qed.

Lemma Simple_constant :
  result_is_constant Simple.App Simple.results Simple.start
                     Simple.simulatedResponse.
Proof.
  apply invariant_constant.
  - intros w i v. unfold step. rewrite Simple_inputs.
    destruct i as [|[|i]]; cbn; rewrite ?app_nil_r; auto.
    destruct i; cbn; auto.
  - intros w. rewrite Simple_step_Click.
    destruct (Simple.loading (store w)).
    + split; [reflexivity|]. exists []. rewrite app_nil_r. auto.
    + split; [reflexivity|]. eexists. split; [reflexivity|].
      constructor; [|constructor]. intros s. cbn. auto.
  - split; [left; reflexivity|constructor].
Qed.

Lemma Validating_constant :
  result_is_constant Validating.App FiveFields.results FiveFields.start
                     Validating.simulatedResponse.
Proof.
  apply invariant_constant.
  - apply change_keeps_results.
  - intros w. unfold Validating.App. rewrite step_Click.
    destruct (FiveFields.loading (store w)).
    + split; [reflexivity|]. exists []. rewrite app_nil_r. auto.
    + unfold exec. destruct (populated_dec (store w)) as [Hp|He].
      * rewrite Validating_runAudit_proceeds by exact Hp.
        split; [reflexivity|]. eexists. split; [reflexivity|].
        constructor; [|constructor]. intros s. cbn. auto.
      * rewrite Validating_runAudit_aborts by exact He.
        split; [reflexivity|]. exists []. split; [reflexivity|constructor].
  - split; [left; reflexivity|constructor].
Qed.

Lemma Webhook_constant :
  result_is_constant Webhook.App FiveFields.results FiveFields.start
                     Webhook.simulatedResponse.
Proof.
  apply invariant_constant.
  - apply change_keeps_results.
  - intros w. unfold Webhook.App. rewrite step_Click.
    destruct (FiveFields.loading (store w)).
    + split; [reflexivity|]. exists []. rewrite app_nil_r. auto.
    + split; [reflexivity|]. eexists. split; [reflexivity|].
      constructor; [|constructor]. intros [r|e] s; cbn; auto.
  - split; [left; reflexivity|constructor].
Qed.

(** ** User events while a submit is pending *)

Lemma user_events_while_loading
      (runAudit : FiveFields.state -> M FiveFields.state unit)
      (evs : list event) (w : world FiveFields.state) :
  FiveFields.loading (store w) = true ->
  Forall (fun ev => from_user ev = true) evs ->
  let w' := run (FiveFields.App runAudit) w evs in
  FiveFields.loading (store w') = true
  /\ FiveFields.results (store w') = FiveFields.results (store w)
  /\ trace w' = trace w
  /\ pending w' = pending w.
Proof.
  intros Hl Hev. revert w Hl.
  induction Hev as [|ev evs Hu _ IH]; intros w Hl; cbv zeta.
  - cbn. auto.
  - cbn [run fold_left].
    assert (Hstep : FiveFields.loading (store (step (FiveFields.App runAudit) w ev)) = true
                    /\ FiveFields.results (store (step (FiveFields.App runAudit) w ev))
                       = FiveFields.results (store w)
                    /\ trace (step (FiveFields.App runAudit) w ev) = trace w
                    /\ pending (step (FiveFields.App runAudit) w ev) = pending w).
    { destruct ev as [i v| |i|i p]; try discriminate Hu.
      - destruct (position_cases i) as [[f ->]|Hi].
        + rewrite step_Change_field. cbn [store trace pending].
          rewrite loading_setter, results_setter. auto.
        + rewrite step_Change_elsewhere by exact Hi. auto.
      - rewrite click_while_loading by exact Hl. auto. }
    destruct Hstep as (El & Er & Et & Ep).
    destruct (IH _ El) as (Fl & Fr & Ft & Fp). unfold run in *.
    rewrite Fl, Fr, Ft, Fp. auto.
Qed.

Lemma same_results_same_panel
      (runAudit : FiveFields.state -> M FiveFields.state unit)
      (s1 s2 : FiveFields.state) :
  FiveFields.results s1 = FiveFields.results s2 ->
  getElementsByClassName "results" (FiveFields.App runAudit s1)
  = getElementsByClassName "results" (FiveFields.App runAudit s2).
Proof.
  intros Hr. unfold getElementsByClassName, FiveFields.App.
  cbn [descendants flat_map app].
  repeat (rewrite ?filter_app;
          cbn [filter has_class existsb is_className props_of orb
               String.eqb Ascii.eqb Bool.eqb]).
  rewrite Hr. reflexivity.
Qed.

Lemma Simple_same_results_same_panel (s1 s2 : Simple.state) :
  Simple.results s1 = Simple.results s2 ->
  getElementsByClassName "results" (Simple.App s1)
  = getElementsByClassName "results" (Simple.App s2).
Proof.
  intros Hr. unfold getElementsByClassName, Simple.App.
  cbn [descendants flat_map app].
  repeat (rewrite ?filter_app;
          cbn [filter has_class existsb is_className props_of orb
               String.eqb Ascii.eqb Bool.eqb]).
  rewrite Hr. reflexivity.
Qed.

(** * The claims *)

Lemma FiveFields_renders_results (runAudit : FiveFields.state -> M FiveFields.state unit) :
  renders_results (FiveFields.App runAudit) FiveFields.results
    ("Directories Found:", "Missing Listings:", "AI Mentions Detected:").
Proof.
  intros s. unfold getElementsByClassName, FiveFields.App, when.
  destruct (FiveFields.results s) as [r|]; [|reflexivity].
  eexists. split.
  - cbn [descendants flat_map app].
    repeat (rewrite ?filter_app;
            cbn [filter has_class existsb is_className props_of orb
                 String.eqb Ascii.eqb Bool.eqb]).
    rewrite by_class_items. reflexivity.
  - unfold shows_result, getElementsByTagName.
    cbn [descendants flat_map app].
    repeat (rewrite ?filter_app;
            cbn [filter has_tag String.eqb Ascii.eqb Bool.eqb]).
    rewrite by_tag_items by reflexivity.
    unfold JS.map. rewrite filter_descendants_items by reflexivity.
    rewrite items_by_tag. cbn [String.eqb Ascii.eqb Bool.eqb].
    split; [reflexivity|]. rewrite !app_nil_r, items_text, items_keys. auto.
Qed.

Lemma Simple_renders_results :
  renders_results Simple.App Simple.results
    ("Directories Found:", "Missing:", "AI Mentioned in Test Prompts:").
Proof.
  intros s. unfold getElementsByClassName, Simple.App, when.
  destruct (Simple.results s) as [r|]; [|reflexivity].
  eexists. split.
  - cbn [descendants flat_map app].
    repeat (rewrite ?filter_app;
            cbn [filter has_class existsb is_className props_of orb
                 String.eqb Ascii.eqb Bool.eqb]).
    rewrite by_class_items. reflexivity.
  - unfold shows_result, getElementsByTagName.
    cbn [descendants flat_map app].
    repeat (rewrite ?filter_app;
            cbn [filter has_tag String.eqb Ascii.eqb Bool.eqb]).
    rewrite by_tag_items by reflexivity.
    unfold JS.map. rewrite filter_descendants_items by reflexivity.
    rewrite items_by_tag. cbn [String.eqb Ascii.eqb Bool.eqb].
    split; [reflexivity|]. rewrite !app_nil_r, items_text, items_keys. auto.
Qed.

(** C4. In every state of every revision the tree holds a results panel
    exactly when [results] is not null; the panel shows the directories and
    the missing listings joined with a comma and a space, the AI flag as
    Yes or No, and one list item per recommendation, in the original order
    and keyed by position. *)
Theorem results_panel_rendering :
  renders_results Simple.App Simple.results
    ("Directories Found:", "Missing:", "AI Mentioned in Test Prompts:")
  /\ renders_results Validating.App FiveFields.results
       ("Directories Found:", "Missing Listings:", "AI Mentions Detected:")
  /\ renders_results Webhook.App FiveFields.results
       ("Directories Found:", "Missing Listings:", "AI Mentions Detected:").
Proof.
  split; [apply Simple_renders_results|].
  split; apply FiveFields_renders_results.
Qed.

Lemma find_app {A : Type} (p : A -> bool) (l1 l2 : list A) :
  find p (l1 ++ l2)
  = match find p l1 with
    | Some x => Some x
    | None => find p l2
    end.
Proof.
  induction l1 as [|x l1 IH]; [reflexivity|].
  cbn. destruct (p x); [reflexivity|exact IH].
Qed.

Lemma latest_cons (f : FiveFields.field) (u : update) (us : list update) :
  latest f (u :: us)
  = match latest f us with
    | Some v => Some v
    | None => if FiveFields.field_eqb (fst u) f then Some (snd u) else None
    end.
Proof.
  unfold latest. cbn [rev]. rewrite find_app.
  destruct (find (fun u0 => FiveFields.field_eqb (fst u0) f) (rev us));
    [reflexivity|].
  cbn. destruct (FiveFields.field_eqb (fst u) f); reflexivity.
Qed.

Section FieldUpdates.
Import FiveFields.
Variable runAudit : state -> M state unit.

Lemma run_updates (us : list update) (w : world state) :
  let w' := run (App runAudit) w (List.map change_of us) in
  (forall f, get f (store w')
             = match latest f us with
               | Some v => v
               | None => get f (store w)
               end)
  /\ results (store w') = results (store w)
  /\ loading (store w') = loading (store w)
  /\ trace w' = trace w
  /\ pending w' = pending w.
Proof.
  revert w. induction us as [|[g v] us IH]; intros w; cbv zeta.
  - cbn. auto.
  - change (run (App runAudit) w (List.map change_of ((g, v) :: us)))
      with (run (App runAudit)
                (step (App runAudit) w (Change (position g) v))
                (List.map change_of us)).
    rewrite step_Change_field.
    destruct (IH (World (next (setter g v (store w))) (trace w) (pending w)))
      as (Hget & Hres & Hload & Htr & Hpen).
    cbn [store trace pending] in *.
    rewrite Hres, Hload, Htr, Hpen, results_setter, loading_setter.
    repeat split; try reflexivity.
    intros f. rewrite Hget, latest_cons, get_setter. cbn [fst snd].
    destruct (latest f us); [reflexivity|].
    destruct (field_eqb g f); reflexivity.
Qed.
End FieldUpdates.

(** C6. In both five-field revisions a field update always goes through and
    replaces that field's value only: after any sequence of updates, from any
    world, every field displays the value of its most recent update (its
    earlier value when the sequence has none), and the results, the loading
    flag, the I/O trace and the pending callbacks are as they were. *)
Theorem field_updates_show_latest_value :
  forall (App : FiveFields.state -> node (M FiveFields.state unit))
         (w : world FiveFields.state) (us : list update),
    App = Validating.App \/ App = Webhook.App ->
    let w' := run App w (List.map change_of us) in
    (forall f, displayed App (FiveFields.position f) w'
               = Some match latest f us with
                      | Some v => v
                      | None => FiveFields.get f (store w)
                      end)
    /\ FiveFields.results (store w') = FiveFields.results (store w)
    /\ FiveFields.loading (store w') = FiveFields.loading (store w)
    /\ trace w' = trace w
    /\ pending w' = pending w.
Proof.
  intros App w us HApp w'.
  assert (Hgen : exists runAudit, App = FiveFields.App runAudit).
  { destruct HApp as [->| ->]; eexists; reflexivity. }
  destruct Hgen as [runAudit ->].
  destruct (run_updates runAudit us w) as (Hget & Hrest).
  split; [|exact Hrest].
  intros f. subst w'. rewrite displayed_field, Hget. reflexivity.
Qed.

Lemma field_updates_show_latest_value_witness :
  displayed Webhook.App (FiveFields.position FiveFields.Email)
            (run Webhook.App FiveFields.start
                 (List.map change_of
                           [(FiveFields.Email, "a"); (FiveFields.Phone, "5");
                            (FiveFields.Email, "a@b.c")]))
  = Some "a@b.c".
Proof.
  exact (proj1 (field_updates_show_latest_value
                  Webhook.App FiveFields.start
                  [(FiveFields.Email, "a"); (FiveFields.Phone, "5");
                   (FiveFields.Email, "a@b.c")]
                  (or_intror eq_refl))
               FiveFields.Email).
Defined.

(** C10. In the constant result of each revision every missing listing is
    one of the directories. *)
Theorem missing_listed_among_directories :
  forall x,
    (In x (missing Simple.simulatedResponse)
     -> In x (directories Simple.simulatedResponse))
    /\ (In x (missing Validating.simulatedResponse)
        -> In x (directories Validating.simulatedResponse))
    /\ (In x (missing Webhook.simulatedResponse)
        -> In x (directories Webhook.simulatedResponse)).
Proof.
  intros x. repeat split; cbn; intros [<-|[]]; auto.
Qed.

Lemma missing_listed_among_directories_witness :
  In "Yelp" (directories Simple.simulatedResponse)
  /\ In "Yelp" (directories Validating.simulatedResponse)
  /\ In "Yelp" (directories Webhook.simulatedResponse).
Proof.
  destruct (missing_listed_among_directories "Yelp") as (H1 & H2 & H3).
  split; [apply H1; cbn; auto|].
  split; [apply H2; cbn; auto|apply H3; cbn; auto].
Defined.

(** C3. In the validating revision, a submit while some field is the empty
    string shows the alert and does nothing else: [runAudit] returns the
    state it was given, with the alert as its only I/O and no callback
    registered; so a click on the enabled button leaves every state
    attribute as it was ([results] unchanged, [loading] still false), adds
    the alert to the trace and nothing to the network or the console, and
    leaves the pending callbacks as they were. *)
Theorem validating_submit_with_empty_field_aborts :
  forall (w : world FiveFields.state) (f : FiveFields.field),
    FiveFields.get f (store w) = "" ->
    FiveFields.loading (store w) = false ->
    let w' := step Validating.App w Click in
    (forall s', Validating.runAudit (store w) s'
                = Result (Normal tt) s'
                    [Alert "Please fill in all fields before running the audit."]
                    [])
    /\ store w' = store w
    /\ FiveFields.results (store w') = FiveFields.results (store w)
    /\ FiveFields.loading (store w') = false
    /\ trace w'
       = (trace w
          ++ [Alert "Please fill in all fields before running the audit."])%list
    /\ filter is_fetch (trace w') = filter is_fetch (trace w)
    /\ filter is_console (trace w') = filter is_console (trace w)
    /\ pending w' = pending w.
Proof.
  intros w f Hf Hl w'.
  assert (Hr : forall s', Validating.runAudit (store w) s'
                = Result (Normal tt) s'
                    [Alert "Please fill in all fields before running the audit."]
                    []).
  { intros s'. apply Validating_runAudit_aborts. exists f. exact Hf. }
  split; [exact Hr|].
  subst w'. unfold Validating.App. rewrite step_Click, Hl.
  unfold exec. rewrite Hr. cbn [store trace pending next emitted scheduled].
  rewrite ?filter_app, ?app_nil_r. cbn. rewrite ?app_nil_r. auto 10.
Qed.

Lemma validating_submit_with_empty_field_aborts_witness :
  let w := run Validating.App FiveFields.start
               [Change 0 "Ada"; Change 1 "555"; Change 3 "Cafe";
                Change 4 "London"] in
  store (step Validating.App w Click) = store w
  /\ FiveFields.results (store (step Validating.App w Click)) = None.
Proof.
  intros w.
  destruct (validating_submit_with_empty_field_aborts w FiveFields.Email
              eq_refl eq_refl) as (_ & Hs & Hr & _).
  split; [exact Hs|]. rewrite Hr. reflexivity.
Defined.

(** C9. In the validating revision the alert is raised if and only if some
    field is the empty string.  When every field is non-empty, whatever its
    characters, the submit proceeds: no alert, [loading] set, the timer
    registered.  A form filled with white space only is such a form. *)
Theorem validating_alert_iff_some_field_empty :
  (forall s s',
      existsb is_alert (emitted (Validating.runAudit s s')) = true
      <-> exists f, FiveFields.get f s = "")
  /\ (forall s s',
         populated s <->
         (emitted (Validating.runAudit s s')
          = [ConsoleLog "Audit submitted:"
               [("contactName", FiveFields.contactName s);
                ("phone", FiveFields.phone s);
                ("email", FiveFields.email s);
                ("business", FiveFields.business s);
                ("location", FiveFields.location s)]]
          /\ FiveFields.loading (next (Validating.runAudit s s')) = true
          /\ exists callback,
               scheduled (Validating.runAudit s s') = [Timer 1500 callback]))
  /\ (let blank :=
        {| FiveFields.contactName := " "; FiveFields.phone := "  ";
           FiveFields.email := String "009" ""; FiveFields.business := " ";
           FiveFields.location := String "010" "";
           FiveFields.results := None; FiveFields.loading := false |} in
      populated blank
      /\ trace (step Validating.App (World blank [] []) Click)
         = [ConsoleLog "Audit submitted:"
              [("contactName", " "); ("phone", "  ");
               ("email", String "009" ""); ("business", " ");
               ("location", String "010" "")]]).
Proof.
  split; [|split].
  - intros s s'. destruct (populated_dec s) as [Hp|He].
    + rewrite Validating_runAudit_proceeds by exact Hp. cbn. split.
      * discriminate.
      * intros [f Hf]. destruct (Hp f Hf).
    + rewrite Validating_runAudit_aborts by exact He. cbn. tauto.
  - intros s s'. destruct (populated_dec s) as [Hp|He].
    + rewrite Validating_runAudit_proceeds by exact Hp. cbn. split; [|tauto].
      intros _. repeat split. eexists. reflexivity.
    + rewrite Validating_runAudit_aborts by exact He. cbn. split.
      * intros Hp. destruct He as [f Hf]. destruct (Hp f Hf).
      * intros [H _]. discriminate H.
  - cbv zeta. split; [|reflexivity]. intros []; cbn; discriminate.
Qed.

(** C7. In every revision [loading] is true exactly while one suspension is
    pending: a 1500ms timer in the timer revisions, the webhook POST in the
    webhook revision.  A submit that passes validation sets [loading] and
    registers exactly one such suspension; what resumes it, on a fulfilled
    and on a rejected promise alike, clears [loading] and registers nothing;
    and in every reachable world [loading] is false if and only if nothing
    is pending, and from a loading world turns false exactly on the event
    that resumes the suspension. *)
Theorem loading_brackets_the_single_suspension :
  loading_brackets_suspension Simple.App Simple.loading Simple.start
                              is_timer_1500
  /\ loading_brackets_suspension Validating.App FiveFields.loading
                                 FiveFields.start is_timer_1500
  /\ loading_brackets_suspension Webhook.App FiveFields.loading
                                 FiveFields.start is_webhook_post
  /\ (forall s',
         Simple.loading (next (Simple.runAudit s')) = true
         /\ exists t, scheduled (Simple.runAudit s') = [t]
                      /\ is_timer_1500 t
                      /\ clears_loading Simple.loading t)
  /\ (forall s s',
         populated s ->
         FiveFields.loading (next (Validating.runAudit s s')) = true
         /\ exists t, scheduled (Validating.runAudit s s') = [t]
                      /\ is_timer_1500 t
                      /\ clears_loading FiveFields.loading t)
  /\ (forall s s',
         FiveFields.loading (next (Webhook.runAudit s s')) = true
         /\ exists t, scheduled (Webhook.runAudit s s') = [t]
                      /\ is_webhook_post t
                      /\ clears_loading FiveFields.loading t).
Proof.
  split; [exact Simple_brackets|].
  split; [exact Validating_brackets|].
  split; [exact Webhook_brackets|].
  split; [|split].
  - intros s'. split; [reflexivity|]. eexists. split; [reflexivity|].
    split; [eexists; reflexivity|]. intros s. split; reflexivity.
  - intros s s' Hp. rewrite Validating_runAudit_proceeds by exact Hp.
    split; [reflexivity|]. eexists. split; [reflexivity|].
    split; [eexists; reflexivity|]. intros s0. split; reflexivity.
  - intros s s'. split; [reflexivity|]. eexists. split; [reflexivity|].
    split; [do 2 eexists; split; reflexivity|].
    intros [r|e] s0; split; reflexivity.
Qed.

Lemma loading_brackets_the_single_suspension_witness :
  let s := {| FiveFields.contactName := "Ada"; FiveFields.phone := "555";
              FiveFields.email := "a@b.c"; FiveFields.business := "Cafe";
              FiveFields.location := "London";
              FiveFields.results := None; FiveFields.loading := false |} in
  populated s
  /\ FiveFields.loading (next (Validating.runAudit s s)) = true.
Proof.
  intros s.
  assert (Hp : populated s) by (intros []; cbn; discriminate).
  split; [exact Hp|].
  exact (proj1 (proj1 (proj2 (proj2 (proj2 (proj2
           loading_brackets_the_single_suspension)))) s s Hp)).
Defined.

(** C5. In the webhook revision every submit issues one request and no
    other: a POST to the fixed URL with the header
    Content-Type: application/json, whose body is the JSON text of an object
    holding the five field values of the submitting rendering under the keys
    name, phone, email, business, location, in that order.  What runs when
    the request settles issues no request and registers nothing, and does
    the same whatever the status and the body of the response.  Over a whole
    cycle started by a click on the enabled button, the trace gains exactly
    that one request. *)
Theorem webhook_submit_posts_the_form_once :
  forall s : FiveFields.state,
    let options :=
      {| method := "POST";
         headers := [("Content-Type", "application/json")];
         body := JS.JSON_stringify
                   [("name", FiveFields.contactName s);
                    ("phone", FiveFields.phone s);
                    ("email", FiveFields.email s);
                    ("business", FiveFields.business s);
                    ("location", FiveFields.location s)] |} in
    let post :=
      Fetch "https://hook.eu2.make.com/oro7fxpewgxa31b8ke1aofxol60129xo"
            options in
    JS.JSON_parse (body options)
    = Some [("name", FiveFields.contactName s);
            ("phone", FiveFields.phone s);
            ("email", FiveFields.email s);
            ("business", FiveFields.business s);
            ("location", FiveFields.location s)]
    /\ (forall s',
           emitted (Webhook.runAudit s s') = [post]
           /\ exists resume,
                scheduled (Webhook.runAudit s s')
                = [Awaiting
                     "https://hook.eu2.make.com/oro7fxpewgxa31b8ke1aofxol60129xo"
                     options resume]
                /\ (forall p s2,
                       filter is_fetch (emitted (resume p s2)) = []
                       /\ scheduled (resume p s2) = [])
                /\ (forall r1 r2 s2,
                       resume (Fulfilled r1) s2 = resume (Fulfilled r2) s2))
    /\ (forall (w : world FiveFields.state) (p : settlement),
           store w = s ->
           FiveFields.loading s = false ->
           pending w = [] ->
           filter is_fetch
                  (trace (run Webhook.App w [Click; Settle 0 p]))
           = (filter is_fetch (trace w) ++ [post])%list).
Proof.
  intros s options post. split; [apply JSON_parse_stringify|]. split.
  - intros s'. split; [reflexivity|]. eexists. split; [reflexivity|].
    split.
    + intros [r|e] s2; split; reflexivity.
    + intros r1 r2 s2. reflexivity.
  - intros w p Hs Hl Hp. destruct w as [s0 tr pe]. cbn in Hs, Hp.
    subst s0 pe post options. cbn [run fold_left]. unfold Webhook.App.
    rewrite step_Click. cbn [store]. rewrite Hl.
    destruct p as [r|e]; cbn -[JS.JSON_stringify];
      rewrite !filter_app; cbn -[JS.JSON_stringify];
      rewrite ?app_nil_r; reflexivity.
Qed.

Lemma webhook_submit_posts_the_form_once_witness :
  filter is_fetch
         (trace (run Webhook.App FiveFields.start
                     [Click; Settle 0 (Fulfilled {| status := 500;
                                                    responseText := "" |})]))
  = [Fetch "https://hook.eu2.make.com/oro7fxpewgxa31b8ke1aofxol60129xo"
           {| method := "POST";
              headers := [("Content-Type", "application/json")];
              body := JS.JSON_stringify
                        [("name", ""); ("phone", ""); ("email", "");
                         ("business", ""); ("location", "")] |}].
Proof.
  exact (proj2 (proj2 (webhook_submit_posts_the_form_once FiveFields.initial))
               FiveFields.start
               (Fulfilled {| status := 500; responseText := "" |})
               eq_refl eq_refl eq_refl).
Defined.

Lemma Webhook_cycle (w : world FiveFields.state) (evs : list event)
      (p : settlement) :
  FiveFields.loading (store w) = false ->
  pending w = [] ->
  Forall (fun ev => from_user ev = true) evs ->
  let w1 := step Webhook.App w Click in
  let w2 := run Webhook.App w1 evs in
  let w3 := step Webhook.App w2 (Settle 0 p) in
  FiveFields.loading (store w1) = true
  /\ FiveFields.loading (store w2) = true
  /\ FiveFields.loading (store w3) = false
  /\ FiveFields.results (store w3)
     = match p with
       | Fulfilled _ => Some Webhook.simulatedResponse
       | Rejected _ => FiveFields.results (store w)
       end
  /\ pending w3 = []
  /\ trace w3
     = (trace w
        ++ [Fetch Webhook.url
              {| method := "POST";
                 headers := [("Content-Type", "application/json")];
                 body := JS.JSON_stringify
                           [("name", FiveFields.contactName (store w));
                            ("phone", FiveFields.phone (store w));
                            ("email", FiveFields.email (store w));
                            ("business", FiveFields.business (store w));
                            ("location", FiveFields.location (store w))] |};
            match p with
            | Fulfilled _ =>
                ConsoleLog "Audit submitted:"
                  [("contactName", FiveFields.contactName (store w));
                   ("phone", FiveFields.phone (store w));
                   ("email", FiveFields.email (store w));
                   ("business", FiveFields.business (store w));
                   ("location", FiveFields.location (store w))]
            | Rejected reason =>
                ConsoleError "Error submitting to webhook:" reason
            end])%list.
Proof.
  intros Hl Hp Hev w1 w2 w3.
  assert (E1 : w1 = exec (Webhook.runAudit (store w)) w []).
  { subst w1. unfold Webhook.App. rewrite step_Click, Hl, Hp. reflexivity. }
  assert (L1 : FiveFields.loading (store w1) = true)
    by (rewrite E1; reflexivity).
  destruct (user_events_while_loading Webhook.runAudit evs w1 L1 Hev)
    as (L2 & R2 & T2 & P2).
  fold Webhook.App in L2, R2, T2, P2. fold w2 in L2, R2, T2, P2.
  split; [exact L1|]. split; [exact L2|].
  subst w3. clearbody w2. clearbody w1. subst w1.
  cbn [step]. rewrite P2.
  destruct w as [s tr pe]. cbn [store trace pending] in *. subst pe.
  destruct p as [r|e]; cbn -[JS.JSON_stringify] in *;
    rewrite T2, <- ?app_assoc, ?R2; cbn -[JS.JSON_stringify]; auto.
Qed.

Lemma Validating_cycle (w : world FiveFields.state) (evs : list event) :
  populated (store w) ->
  FiveFields.loading (store w) = false ->
  pending w = [] ->
  Forall (fun ev => from_user ev = true) evs ->
  let w1 := step Validating.App w Click in
  let w2 := run Validating.App w1 evs in
  let w3 := step Validating.App w2 (Elapse 0) in
  FiveFields.loading (store w1) = true
  /\ FiveFields.loading (store w2) = true
  /\ FiveFields.loading (store w3) = false
  /\ FiveFields.results (store w3) = Some Validating.simulatedResponse
  /\ pending w3 = [].
Proof.
  intros Hpop Hl Hp Hev w1 w2 w3.
  assert (E1 : w1 = exec (Validating.runAudit (store w)) w []).
  { subst w1. unfold Validating.App. rewrite step_Click, Hl, Hp.
    reflexivity. }
  unfold exec in E1. rewrite Validating_runAudit_proceeds in E1 by exact Hpop.
  assert (L1 : FiveFields.loading (store w1) = true)
    by (rewrite E1; reflexivity).
  destruct (user_events_while_loading Validating.runAudit evs w1 L1 Hev)
    as (L2 & R2 & T2 & P2).
  fold Validating.App in L2, R2, T2, P2. fold w2 in L2, R2, T2, P2.
  split; [exact L1|]. split; [exact L2|].
  subst w3. clearbody w2. clearbody w1. subst w1.
  cbn [step]. rewrite P2. cbn. auto.
Qed.

(** C1, as the code has it.  In the webhook revision, when the POST is
    rejected the submit cycle ends with [loading] false and [results] as
    it was before the submit (null on a first attempt): the rejection is
    caught, written to the console as an error, and the statements after
    the [await] inside the [try] block, the success log and the call of
    [setResults], are skipped.  Field edits and clicks made while the
    request is pending do not change this. *)
Theorem webhook_rejection_keeps_results :
  forall (w : world FiveFields.state) (evs : list event) (reason : error),
    FiveFields.loading (store w) = false ->
    pending w = [] ->
    Forall (fun ev => from_user ev = true) evs ->
    let w' := run Webhook.App w
                  (Click :: evs ++ [Settle 0 (Rejected reason)]) in
    FiveFields.loading (store w') = false
    /\ FiveFields.results (store w') = FiveFields.results (store w)
    /\ same_panel Webhook.App w' w
    /\ pending w' = []
    /\ trace w'
       = (trace w
          ++ [Fetch "https://hook.eu2.make.com/oro7fxpewgxa31b8ke1aofxol60129xo"
                {| method := "POST";
                   headers := [("Content-Type", "application/json")];
                   body := JS.JSON_stringify
                             [("name", FiveFields.contactName (store w));
                              ("phone", FiveFields.phone (store w));
                              ("email", FiveFields.email (store w));
                              ("business", FiveFields.business (store w));
                              ("location", FiveFields.location (store w))] |};
              ConsoleError "Error submitting to webhook:" reason])%list.
Proof.
  intros w evs reason Hl Hp Hev w'.
  destruct (Webhook_cycle w evs (Rejected reason) Hl Hp Hev)
    as (_ & _ & L3 & R3 & P3 & T3).
  assert (E : w' = step Webhook.App
                        (run Webhook.App (step Webhook.App w Click) evs)
                        (Settle 0 (Rejected reason))).
  { subst w'. cbn [run fold_left]. fold (run Webhook.App).
    apply run_snoc. }
  rewrite E. repeat split; try assumption.
  unfold same_panel, Webhook.App. apply same_results_same_panel. exact R3.
Qed.

Lemma webhook_rejection_keeps_results_witness :
  FiveFields.results
    (store (run Webhook.App FiveFields.start
                ([Click; Change 0 "Ada"; Click]
                 ++ [Settle 0 (Rejected (JSError "TypeError"
                                                 "Failed to fetch"))])))
  = None.
Proof.
  refine (proj1 (proj2 (webhook_rejection_keeps_results
                          FiveFields.start [Change 0 "Ada"; Click]
                          (JSError "TypeError" "Failed to fetch") _ _ _)));
    [reflexivity|reflexivity|repeat constructor].
Defined.

(** C1 as stated fails: on a first submit whose POST is rejected the cycle
    ends with [loading] false but [results] still null, not the constant,
    and no results panel in the tree. *)
Lemma webhook_rejection_shows_no_results :
  let w := run Webhook.App FiveFields.start
               [Click;
                Settle 0 (Rejected (JSError "TypeError" "Failed to fetch"))] in
  FiveFields.loading (store w) = false
  /\ FiveFields.results (store w) = None
  /\ FiveFields.results (store w) <> Some Webhook.simulatedResponse
  /\ getElementsByClassName "results" (Webhook.App (store w)) = [].
Proof.
  cbv zeta. repeat split. discriminate.
Qed.

(** C2, as the code has it.  A submit of a populated form sets [loading]
    at once; [loading] stays true through every field edit and click made
    while the wait is pending, and turns false when the timer fires or the
    request settles.  At that point [results] is exactly the constant if the
    wait was the timer of the validating revision or the POST of the webhook
    revision was fulfilled; if the POST was rejected, [results] is what it
    was before the submit. *)
Theorem populated_submit_sets_loading_then_results :
  let constant :=
    {| directories := ["Google Business"; "Yelp"; "Bing Places"];
       missing := ["Yelp"];
       aiMention := false;
       recommendations :=
         ["Create a Yelp profile with full business details.";
          "Add structured FAQ to your website (schema.org markup).";
          "Get mentioned on local blogs or Reddit threads."] |} in
  (forall (w : world FiveFields.state) (evs : list event),
      populated (store w) ->
      FiveFields.loading (store w) = false ->
      pending w = [] ->
      Forall (fun ev => from_user ev = true) evs ->
      let w1 := step Validating.App w Click in
      let w2 := run Validating.App w1 evs in
      let w3 := step Validating.App w2 (Elapse 0) in
      FiveFields.loading (store w1) = true
      /\ FiveFields.loading (store w2) = true
      /\ FiveFields.loading (store w3) = false
      /\ FiveFields.results (store w3) = Some constant)
  /\ (forall (w : world FiveFields.state) (evs : list event) (p : settlement),
         populated (store w) ->
         FiveFields.loading (store w) = false ->
         pending w = [] ->
         Forall (fun ev => from_user ev = true) evs ->
         let w1 := step Webhook.App w Click in
         let w2 := run Webhook.App w1 evs in
         let w3 := step Webhook.App w2 (Settle 0 p) in
         FiveFields.loading (store w1) = true
         /\ FiveFields.loading (store w2) = true
         /\ FiveFields.loading (store w3) = false
         /\ FiveFields.results (store w3)
            = match p with
              | Fulfilled _ => Some constant
              | Rejected _ => FiveFields.results (store w)
              end).
Proof.
  intros constant. split.
  - intros w evs Hpop Hl Hp Hev.
    destruct (Validating_cycle w evs Hpop Hl Hp Hev) as (L1 & L2 & L3 & R3 & _).
    cbv zeta. auto.
  - intros w evs p _ Hl Hp Hev.
    destruct (Webhook_cycle w evs p Hl Hp Hev) as (L1 & L2 & L3 & R3 & _).
    cbv zeta. auto.
Qed.

Lemma populated_submit_sets_loading_then_results_witness :
  let w := run Validating.App FiveFields.start
               [Change 0 "Ada"; Change 1 "555"; Change 2 "a@b.c";
                Change 3 "Cafe"; Change 4 "London"] in
  populated (store w)
  /\ FiveFields.results
       (store (step Validating.App
                    (run Validating.App (step Validating.App w Click)
                         [Change 4 "Paris"; Click])
                    (Elapse 0)))
     = Some Validating.simulatedResponse.
Proof.
  intros w.
  assert (Hp : populated (store w)) by (intros []; cbn; discriminate).
  split; [exact Hp|].
  refine (proj2 (proj2 (proj2
            (proj1 populated_submit_sets_loading_then_results
                   w [Change 4 "Paris"; Click] Hp _ _ _))));
    [reflexivity|reflexivity|repeat constructor].
Defined.

(** C2 as stated fails: a populated form, submitted in the webhook
    revision, whose POST is rejected: [loading] goes true, then false on
    settlement, and at that point [results] is not the constant. *)
Lemma populated_submit_rejected_has_no_results :
  let w0 := run Webhook.App FiveFields.start
                [Change 0 "Ada"; Change 1 "555"; Change 2 "a@b.c";
                 Change 3 "Cafe"; Change 4 "London"] in
  let w1 := step Webhook.App w0 Click in
  let w2 := step Webhook.App w1
                 (Settle 0 (Rejected (JSError "TypeError" "Failed to fetch"))) in
  populated (store w0)
  /\ FiveFields.loading (store w1) = true
  /\ FiveFields.loading (store w2) = false
  /\ pending w2 = []
  /\ FiveFields.results (store w2)
     <> Some {| directories := ["Google Business"; "Yelp"; "Bing Places"];
                missing := ["Yelp"];
                aiMention := false;
                recommendations :=
                  ["Create a Yelp profile with full business details.";
                   "Add structured FAQ to your website (schema.org markup).";
                   "Get mentioned on local blogs or Reddit threads."] |}.
Proof.
  cbv zeta. split; [intros []; cbn; discriminate|].
  repeat split. discriminate.
Qed.

(** C8, as the code has it.  The displayed result does not depend on what
    was submitted.  In every reachable world of every revision [results] is
    null or the constant.  For any two states of the form whose buttons are
    enabled (both populated, in the validating revision), a submit cycle
    completed by the timer, or in the webhook revision by a fulfilled
    request, whatever the two responses, ends with [results] equal to the
    constant and with the same results panel.  A webhook cycle completed by
    a rejected request leaves [results] as it was before the submit, so two
    such cycles show the same panel when the earlier [results] agree; and
    two webhook cycles with one and the same outcome, from states with the
    same earlier [results], end alike. *)
Theorem displayed_result_independent_of_form :
  result_is_constant Simple.App Simple.results Simple.start
                     Simple.simulatedResponse
  /\ result_is_constant Validating.App FiveFields.results FiveFields.start
                        Validating.simulatedResponse
  /\ result_is_constant Webhook.App FiveFields.results FiveFields.start
                        Webhook.simulatedResponse
  /\ (forall s1 s2 : Simple.state,
         Simple.loading s1 = false ->
         Simple.loading s2 = false ->
         let w1 := run Simple.App (World s1 [] []) [Click; Elapse 0] in
         let w2 := run Simple.App (World s2 [] []) [Click; Elapse 0] in
         Simple.results (store w1) = Some Simple.simulatedResponse
         /\ Simple.results (store w2) = Some Simple.simulatedResponse
         /\ same_panel Simple.App w1 w2)
  /\ (forall s1 s2 : FiveFields.state,
         populated s1 -> populated s2 ->
         FiveFields.loading s1 = false ->
         FiveFields.loading s2 = false ->
         let w1 := run Validating.App (World s1 [] []) [Click; Elapse 0] in
         let w2 := run Validating.App (World s2 [] []) [Click; Elapse 0] in
         FiveFields.results (store w1) = Some Validating.simulatedResponse
         /\ FiveFields.results (store w2) = Some Validating.simulatedResponse
         /\ same_panel Validating.App w1 w2)
  /\ (forall (s1 s2 : FiveFields.state) (response1 response2 : Response),
         FiveFields.loading s1 = false ->
         FiveFields.loading s2 = false ->
         let w1 := run Webhook.App (World s1 [] [])
                       [Click; Settle 0 (Fulfilled response1)] in
         let w2 := run Webhook.App (World s2 [] [])
                       [Click; Settle 0 (Fulfilled response2)] in
         FiveFields.results (store w1) = Some Webhook.simulatedResponse
         /\ FiveFields.results (store w2) = Some Webhook.simulatedResponse
         /\ same_panel Webhook.App w1 w2)
  /\ (forall (s1 s2 : FiveFields.state) (reason1 reason2 : error),
         FiveFields.loading s1 = false ->
         FiveFields.loading s2 = false ->
         let w1 := run Webhook.App (World s1 [] [])
                       [Click; Settle 0 (Rejected reason1)] in
         let w2 := run Webhook.App (World s2 [] [])
                       [Click; Settle 0 (Rejected reason2)] in
         FiveFields.results (store w1) = FiveFields.results s1
         /\ FiveFields.results (store w2) = FiveFields.results s2
         /\ (FiveFields.results s1 = FiveFields.results s2 ->
             same_panel Webhook.App w1 w2))
  /\ (forall (s1 s2 : FiveFields.state) (p : settlement),
         FiveFields.loading s1 = false ->
         FiveFields.loading s2 = false ->
         FiveFields.results s1 = FiveFields.results s2 ->
         let w1 := run Webhook.App (World s1 [] []) [Click; Settle 0 p] in
         let w2 := run Webhook.App (World s2 [] []) [Click; Settle 0 p] in
         FiveFields.results (store w1) = FiveFields.results (store w2)
         /\ same_panel Webhook.App w1 w2).
Proof.
  split; [exact Simple_constant|].
  split; [exact Validating_constant|].
  split; [exact Webhook_constant|].
  split; [|split; [|split; [|split]]].
  - intros s1 s2 H1 H2 w1 w2.
    assert (R1 : Simple.results (store w1) = Some Simple.simulatedResponse).
    { subst w1. cbn [run fold_left]. rewrite Simple_step_Click.
      cbn [store]. rewrite H1. reflexivity. }
    assert (R2 : Simple.results (store w2) = Some Simple.simulatedResponse).
    { subst w2. cbn [run fold_left]. rewrite Simple_step_Click.
      cbn [store]. rewrite H2. reflexivity. }
    repeat split; try assumption.
    apply Simple_same_results_same_panel. congruence.
  - intros s1 s2 P1 P2 H1 H2 w1 w2.
    destruct (Validating_cycle (World s1 [] []) [] P1 H1 eq_refl
                               (Forall_nil _)) as (_ & _ & _ & R1 & _).
    destruct (Validating_cycle (World s2 [] []) [] P2 H2 eq_refl
                               (Forall_nil _)) as (_ & _ & _ & R2 & _).
    cbn [run fold_left] in R1, R2.
    repeat split; try assumption.
    apply same_results_same_panel.
    etransitivity; [exact R1|symmetry; exact R2].
  - intros s1 s2 response1 response2 H1 H2 w1 w2.
    destruct (Webhook_cycle (World s1 [] []) [] (Fulfilled response1) H1
                            eq_refl (Forall_nil _)) as (_ & _ & _ & R1 & _).
    destruct (Webhook_cycle (World s2 [] []) [] (Fulfilled response2) H2
                            eq_refl (Forall_nil _)) as (_ & _ & _ & R2 & _).
    cbn [run fold_left store] in R1, R2.
    repeat split; try assumption.
    apply same_results_same_panel.
    etransitivity; [exact R1|symmetry; exact R2].
  - intros s1 s2 reason1 reason2 H1 H2 w1 w2.
    destruct (Webhook_cycle (World s1 [] []) [] (Rejected reason1) H1
                            eq_refl (Forall_nil _)) as (_ & _ & _ & R1 & _).
    destruct (Webhook_cycle (World s2 [] []) [] (Rejected reason2) H2
                            eq_refl (Forall_nil _)) as (_ & _ & _ & R2 & _).
    cbn [run fold_left store] in R1, R2.
    repeat split; try assumption.
    intros Hr. apply same_results_same_panel.
    etransitivity; [exact R1|]. rewrite Hr. symmetry. exact R2.
  - intros s1 s2 p H1 H2 Hr w1 w2.
    destruct (Webhook_cycle (World s1 [] []) [] p H1 eq_refl
                            (Forall_nil _)) as (_ & _ & _ & R1 & _).
    destruct (Webhook_cycle (World s2 [] []) [] p H2 eq_refl
                            (Forall_nil _)) as (_ & _ & _ & R2 & _).
    cbn [run fold_left store] in R1, R2.
    assert (R : FiveFields.results (store w1) = FiveFields.results (store w2)).
    { etransitivity; [exact R1|]. rewrite Hr. symmetry. exact R2. }
    split; [exact R|]. apply same_results_same_panel, R.
Qed.

Lemma displayed_result_independent_of_form_witness :
  let s1 := {| FiveFields.contactName := "Ada"; FiveFields.phone := "555";
               FiveFields.email := "a@b.c"; FiveFields.business := "Cafe";
               FiveFields.location := "London";
               FiveFields.results := None; FiveFields.loading := false |} in
  let s2 := {| FiveFields.contactName := "Bob"; FiveFields.phone := "777";
               FiveFields.email := "b@c.d"; FiveFields.business := "Bar";
               FiveFields.location := "Paris";
               FiveFields.results := None; FiveFields.loading := false |} in
  same_panel Validating.App
             (run Validating.App (World s1 [] []) [Click; Elapse 0])
             (run Validating.App (World s2 [] []) [Click; Elapse 0])
  /\ (FiveFields.results
        (store (run Webhook.App (World s1 [] [])
                    [Click; Settle 0 (Fulfilled {| status := 200;
                                                   responseText := "ok" |})]))
      = Some Webhook.simulatedResponse
      /\ FiveFields.results
           (store (run Webhook.App (World s2 [] [])
                       [Click; Settle 0 (Fulfilled {| status := 500;
                                                      responseText := "" |})]))
         = Some Webhook.simulatedResponse)
  /\ same_panel Webhook.App
                (run Webhook.App (World s1 [] [])
                     [Click; Settle 0 (Rejected (JSError "TypeError"
                                                         "Failed to fetch"))])
                (run Webhook.App (World s2 [] [])
                     [Click; Settle 0 (Rejected (JSError "AbortError"
                                                         "aborted"))])
  /\ same_panel Webhook.App
                (run Webhook.App (World s1 [] [])
                     [Click; Settle 0 (Fulfilled {| status := 200;
                                                    responseText := "ok" |})])
                (run Webhook.App (World s2 [] [])
                     [Click; Settle 0 (Fulfilled {| status := 200;
                                                    responseText := "ok" |})])
  /\ same_panel Simple.App
                (run Simple.App Simple.start [Click; Elapse 0])
                (run Simple.App
                     (World {| Simple.business := "Cafe";
                               Simple.location := "London";
                               Simple.results := None;
                               Simple.loading := false |} [] [])
                     [Click; Elapse 0]).
Proof.
  intros s1 s2.
  assert (P1 : populated s1) by (intros []; cbn; discriminate).
  assert (P2 : populated s2) by (intros []; cbn; discriminate).
  destruct displayed_result_independent_of_form
    as (_ & _ & _ & HS & HV & HF & HR & HW).
  split; [exact (proj2 (proj2 (HV s1 s2 P1 P2 eq_refl eq_refl)))|].
  split.
  { destruct (HF s1 s2 {| status := 200; responseText := "ok" |}
                 {| status := 500; responseText := "" |} eq_refl eq_refl)
      as (R1 & R2 & _).
    split; [exact R1|exact R2]. }
  split.
  { exact (proj2 (proj2 (HR s1 s2 (JSError "TypeError" "Failed to fetch")
                            (JSError "AbortError" "aborted")
                            eq_refl eq_refl)) eq_refl). }
  split; [exact (proj2 (HW s1 s2 (Fulfilled {| status := 200;
                                               responseText := "ok" |})
                           eq_refl eq_refl eq_refl))|].
  exact (proj2 (proj2 (HS Simple.initial
                          {| Simple.business := "Cafe";
                             Simple.location := "London";
                             Simple.results := None;
                             Simple.loading := false |}
                          eq_refl eq_refl))).
Defined.

(** C8 as stated fails: two populated forms submitted in the webhook
    revision, the first request fulfilled, the second rejected.  Both cycles
    complete ([loading] false again, nothing pending), yet the first ends
    with the constant and a results panel, the second with [results] null
    and no panel: the displayed results are not identical, and the second
    is not the constant. *)
Lemma completed_cycles_can_show_different_results :
  let s1 := {| FiveFields.contactName := "Ada"; FiveFields.phone := "555";
               FiveFields.email := "a@b.c"; FiveFields.business := "Cafe";
               FiveFields.location := "London";
               FiveFields.results := None; FiveFields.loading := false |} in
  let s2 := {| FiveFields.contactName := "Bob"; FiveFields.phone := "777";
               FiveFields.email := "b@c.d"; FiveFields.business := "Bar";
               FiveFields.location := "Paris";
               FiveFields.results := None; FiveFields.loading := false |} in
  let w1 := run Webhook.App (World s1 [] [])
                [Click; Settle 0 (Fulfilled {| status := 200;
                                               responseText := "ok" |})] in
  let w2 := run Webhook.App (World s2 [] [])
                [Click; Settle 0 (Rejected (JSError "TypeError"
                                                    "Failed to fetch"))] in
  (FiveFields.loading (store w1) = false /\ pending w1 = [])
  /\ (FiveFields.loading (store w2) = false /\ pending w2 = [])
  /\ FiveFields.results (store w1) = Some Webhook.simulatedResponse
  /\ FiveFields.results (store w2) = None
  /\ FiveFields.results (store w1) <> FiveFields.results (store w2)
  /\ List.length (getElementsByClassName "results" (Webhook.App (store w1)))
     = 1
  /\ getElementsByClassName "results" (Webhook.App (store w2)) = []
  /\ ~ same_panel Webhook.App w1 w2.
Proof.
  cbv zeta. repeat split; discriminate.
Qed.

(** * Further properties *)

(** ** What handlers and callbacks do, in any such component *)

Section Behaviour.
Context {S : Type}.
Variable App : S -> node (M S unit).
Variable fields : S -> list string.
Variable results : S -> option AuditResult.
Variable loading : S -> bool.
Variable c : AuditResult.
Variable allowed : io -> bool.

Hypothesis user_step : forall w ev,
  from_user ev = true ->
  step App w ev = w
  \/ exists r,
       handler_ok fields results loading c allowed (store w) r
       /\ (is_change ev = false -> fields (next r) = fields (store w))
       /\ step App w ev
          = World (next r) (trace w ++ emitted r) (pending w ++ scheduled r).

Lemma resume_step (w : world S) (ev : event) :
  Forall (callback_satisfies (callback_ok fields results loading c allowed))
         (pending w) ->
  from_user ev = false ->
  step App w ev = w
  \/ exists r i,
       callback_ok fields results loading c allowed (store w) r
       /\ step App w ev
          = World (next r) (trace w ++ emitted r) (remove_nth i (pending w)).
Proof.
  intros Hp Hev. destruct ev as [i v| |i|i p]; try discriminate Hev.
  - cbn [step]. destruct (nth_error (pending w) i) as [t|] eqn:Et; [|auto].
    destruct t as [ms cb|res opts k]; [|auto].
    pose proof (Forall_nth_error _ _ _ _ Hp Et (store w)) as Hr.
    right. exists (cb (store w)), i. split; [exact Hr|].
    unfold exec. rewrite (proj1 Hr), app_nil_r. reflexivity.
  - cbn [step]. destruct (nth_error (pending w) i) as [t|] eqn:Et; [|auto].
    destruct t as [ms cb|res opts k]; [auto|].
    pose proof (Forall_nth_error _ _ _ _ Hp Et p (store w)) as Hr.
    right. exists (k p (store w)), i. split; [exact Hr|].
    unfold exec. rewrite (proj1 Hr), app_nil_r. reflexivity.
Qed.

Lemma step_pending_ok (w : world S) (ev : event) :
  Forall (callback_satisfies (callback_ok fields results loading c allowed))
         (pending w) -> Forall (callback_satisfies (callback_ok fields results loading c allowed))
         (pending (step App w ev)).
Proof.
  intros Hp. destruct (from_user ev) eqn:Hev.
  - destruct (user_step w ev Hev) as [->|[r [(_ & _ & Hs) [_ ->]]]];
      [exact Hp|].
    cbn [pending]. apply Forall_app. auto.
  - destruct (resume_step w ev Hp Hev) as [->|[r [i [_ ->]]]]; [exact Hp|].
    cbn [pending]. apply Forall_remove_nth, Hp.
Qed.

Lemma run_pending_ok (evs : list event) (w : world S) :
  Forall (callback_satisfies (callback_ok fields results loading c allowed))
         (pending w) -> Forall (callback_satisfies (callback_ok fields results loading c allowed))
         (pending (run App w evs)).
Proof.
  revert w. induction evs as [|ev evs IH]; intros w Hw; [exact Hw|].
  cbn [run fold_left]. apply IH, step_pending_ok, Hw.
Qed.

Lemma step_cases (w : world S) (ev : event) :
  Forall (callback_satisfies (callback_ok fields results loading c allowed))
         (pending w) ->
  step App w ev = w
  \/ exists (r : result (task S) S unit) others,
       (results (next r) = results (store w)
        \/ results (next r) = Some c)
       /\ forallb allowed (emitted r) = true
       /\ (is_change ev = false -> fields (next r) = fields (store w))
       /\ step App w ev = World (next r) (trace w ++ emitted r) others.
Proof.
  intros Hp. destruct (from_user ev) eqn:Hev.
  - destruct (user_step w ev Hev) as [->|[r [(Hr & Ha & _) [Hf ->]]]];
      [auto|].
    right. exists r, (pending w ++ scheduled r)%list. auto.
  - destruct (resume_step w ev Hp Hev)
      as [->|[r [i [(_ & Hf & Hr & _ & Ha) ->]]]]; [auto|].
    right. exists r, (remove_nth i (pending w)). auto.
Qed.

Lemma run_trace_allowed (evs : list event) (w : world S) :
  Forall (callback_satisfies (callback_ok fields results loading c allowed))
         (pending w) ->
  forallb allowed (trace w) = true ->
  forallb allowed (trace (run App w evs)) = true.
Proof.
  revert w. induction evs as [|ev evs IH]; intros w Hp Ht; [exact Ht|].
  cbn [run fold_left]. apply IH; [apply step_pending_ok, Hp|].
  destruct (step_cases w ev Hp) as [->|[r [o (_ & Ha & _ & ->)]]];
    [exact Ht|].
  cbn [trace]. rewrite forallb_app, Ht, Ha. reflexivity.
Qed.

Lemma run_results_stay (evs : list event) (w : world S) :
  Forall (callback_satisfies (callback_ok fields results loading c allowed))
         (pending w) ->
  results (store w) = Some c ->
  results (store (run App w evs)) = Some c.
Proof.
  revert w. induction evs as [|ev evs IH]; intros w Hp Hr; [exact Hr|].
  cbn [run fold_left]. apply IH; [apply step_pending_ok, Hp|].
  destruct (step_cases w ev Hp) as [->|[r [o ([E|E] & _ & _ & ->)]]];
    [exact Hr| |]; cbn [store]; congruence.
Qed.

Lemma run_user_keeps_results (evs : list event) (w : world S) :
  Forall (fun ev => from_user ev = true) evs ->
  results (store (run App w evs)) = results (store w).
Proof.
  intros Hev. revert w. induction Hev as [|ev evs Hu _ IH]; intros w;
    [reflexivity|].
  cbn [run fold_left]. unfold run in IH. rewrite IH.
  destruct (user_step w ev Hu) as [->|[r [(Hr & _) [_ ->]]]];
    [reflexivity|exact Hr].
Qed.

Lemma step_keeps_fields (w : world S) (ev : event) :
  Forall (callback_satisfies (callback_ok fields results loading c allowed))
         (pending w) ->
  is_change ev = false ->
  fields (store (step App w ev)) = fields (store w).
Proof.
  intros Hp Hc.
  destruct (step_cases w ev Hp) as [->|[r [o (_ & _ & Hf & ->)]]];
    [reflexivity|].
  cbn [store]. apply Hf, Hc.
Qed.

End Behaviour.

(** ** The three revisions are such components *)

Lemma Simple_step_Change (w : world Simple.state) (i : nat) (v : string) :
  step Simple.App w (Change i v)
  = match i with
    | 0 => World (next (Simple.setBusiness v (store w))) (trace w) (pending w)
    | 1 => World (next (Simple.setLocation v (store w))) (trace w) (pending w)
    | _ => w
    end.
Proof.
  unfold step. rewrite Simple_inputs.
  destruct i as [|[|i]]; unfold exec; cbn; rewrite ?app_nil_r;
    try reflexivity.
  destruct i; reflexivity.
Qed.

Lemma Simple_user_step (w : world Simple.state) (ev : event) :
  from_user ev = true ->
  step Simple.App w ev = w
  \/ exists r,
       handler_ok simple_fields Simple.results Simple.loading
                  Simple.simulatedResponse simple_io (store w) r
       /\ (is_change ev = false -> simple_fields (next r) = simple_fields (store w))
       /\ step Simple.App w ev
          = World (next r) (trace w ++ emitted r) (pending w ++ scheduled r).
Proof.
  intros Hev. destruct ev as [i v| |i|i p]; try discriminate Hev.
  - rewrite Simple_step_Change. destruct i as [|[|i]]; [| |auto]; right.
    + exists (Simple.setBusiness v (store w)).
      split; [repeat split; constructor|].
      split; [discriminate|]. cbn. rewrite !app_nil_r. reflexivity.
    + exists (Simple.setLocation v (store w)).
      split; [repeat split; constructor|].
      split; [discriminate|]. cbn. rewrite !app_nil_r. reflexivity.
  - rewrite Simple_step_Click. destruct (Simple.loading (store w)); [auto|].
    right. exists (Simple.runAudit (store w)). split; [|split].
    + split; [reflexivity|]. split; [reflexivity|].
      constructor; [|constructor]. intros s. repeat split. cbn. auto.
    + reflexivity.
    + reflexivity.
Qed.

Lemma FiveFields_change_step
      (runAudit : FiveFields.state -> M FiveFields.state unit)
      (c : AuditResult) (allowed : io -> bool)
      (w : world FiveFields.state) (i : nat) (v : string) :
  step (FiveFields.App runAudit) w (Change i v) = w
  \/ exists r,
       handler_ok form_fields FiveFields.results FiveFields.loading
                  c allowed (store w) r
       /\ (is_change (Change i v) = false
           -> form_fields (next r) = form_fields (store w))
       /\ step (FiveFields.App runAudit) w (Change i v)
          = World (next r) (trace w ++ emitted r) (pending w ++ scheduled r).
Proof.
  destruct (position_cases i) as [[f ->]|Hi].
  - right. exists (FiveFields.setter f v (store w)).
    rewrite step_Change_field. split; [|split].
    + destruct f; repeat split; constructor.
    + discriminate.
    + destruct f; cbn; rewrite !app_nil_r; reflexivity.
  - left. apply step_Change_elsewhere, Hi.
Qed.

Lemma Validating_runAudit_ok (s s' : FiveFields.state) :
  handler_ok form_fields FiveFields.results FiveFields.loading
             Validating.simulatedResponse validating_io s'
             (Validating.runAudit s s')
  /\ form_fields (next (Validating.runAudit s s')) = form_fields s'.
Proof.
  destruct (populated_dec s) as [Hp|He].
  - rewrite Validating_runAudit_proceeds by exact Hp. split; [|reflexivity].
    split; [reflexivity|]. split; [reflexivity|].
    constructor; [|constructor]. intros s0. repeat split. cbn. auto.
  - rewrite Validating_runAudit_aborts by exact He. split; [|reflexivity].
    split; [reflexivity|]. split; [reflexivity|constructor].
Qed.

Lemma Webhook_runAudit_ok (s s' : FiveFields.state) :
  handler_ok form_fields FiveFields.results FiveFields.loading
             Webhook.simulatedResponse webhook_io s'
             (Webhook.runAudit s s')
  /\ form_fields (next (Webhook.runAudit s s')) = form_fields s'.
Proof.
  split; [|reflexivity].
  split; [reflexivity|]. split; [reflexivity|].
  constructor; [|constructor]. intros [r|e] s0; repeat split; cbn; auto.
Qed.

Lemma Validating_user_step (w : world FiveFields.state) (ev : event) :
  from_user ev = true ->
  step Validating.App w ev = w
  \/ exists r,
       handler_ok form_fields FiveFields.results FiveFields.loading
                  Validating.simulatedResponse validating_io (store w) r
       /\ (is_change ev = false -> form_fields (next r) = form_fields (store w))
       /\ step Validating.App w ev
          = World (next r) (trace w ++ emitted r) (pending w ++ scheduled r).
Proof.
  intros Hev. destruct ev as [i v| |i|i p]; try discriminate Hev.
  - apply FiveFields_change_step.
  - unfold Validating.App. rewrite step_Click.
    destruct (FiveFields.loading (store w)); [auto|]. right.
    exists (Validating.runAudit (store w) (store w)).
    destruct (Validating_runAudit_ok (store w) (store w)) as [Hh Hf].
    split; [exact Hh|]. split; [intros _; exact Hf|reflexivity].
Qed.

Lemma Webhook_user_step (w : world FiveFields.state) (ev : event) :
  from_user ev = true ->
  step Webhook.App w ev = w
  \/ exists r,
       handler_ok form_fields FiveFields.results FiveFields.loading
                  Webhook.simulatedResponse webhook_io (store w) r
       /\ (is_change ev = false -> form_fields (next r) = form_fields (store w))
       /\ step Webhook.App w ev
          = World (next r) (trace w ++ emitted r) (pending w ++ scheduled r).
Proof.
  intros Hev. destruct ev as [i v| |i|i p]; try discriminate Hev.
  - apply FiveFields_change_step.
  - unfold Webhook.App. rewrite step_Click.
    destruct (FiveFields.loading (store w)); [auto|]. right.
    exists (Webhook.runAudit (store w) (store w)).
    destruct (Webhook_runAudit_ok (store w) (store w)) as [Hh Hf].
    split; [exact Hh|]. split; [intros _; exact Hf|reflexivity].
Qed.

(** ** Properties of the controls *)

Lemma latest_at_cons (k : nat) (u : nat * string) (us : list (nat * string)) :
  latest_at k (u :: us)
  = match latest_at k us with
    | Some v => Some v
    | None => if Nat.eqb (fst u) k then Some (snd u) else None
    end.
Proof.
  unfold latest_at. cbn [rev]. rewrite find_app.
  destruct (find (fun u0 => Nat.eqb (fst u0) k) (rev us)); [reflexivity|].
  cbn. destruct (Nat.eqb (fst u) k); reflexivity.
Qed.

Lemma Simple_displayed (w : world Simple.state) :
  displayed Simple.App 0 w = Some (Simple.business (store w))
  /\ displayed Simple.App 1 w = Some (Simple.location (store w))
  /\ forall i, 2 <= i -> displayed Simple.App i w = None.
Proof.
  unfold displayed. rewrite Simple_inputs. repeat split.
  intros i Hi. do 2 (destruct i as [|i]; [lia|]). destruct i; reflexivity.
Qed.

Lemma Simple_run_updates (us : list (nat * string)) (w : world Simple.state) :
  let w' := run Simple.App w (List.map change_at us) in
  Simple.business (store w')
  = match latest_at 0 us with
    | Some v => v
    | None => Simple.business (store w)
    end
  /\ Simple.location (store w')
     = match latest_at 1 us with
       | Some v => v
       | None => Simple.location (store w)
       end
  /\ Simple.results (store w') = Simple.results (store w)
  /\ Simple.loading (store w') = Simple.loading (store w)
  /\ trace w' = trace w
  /\ pending w' = pending w.
Proof.
  revert w. induction us as [|[i v] us IH]; intros w; cbv zeta.
  - cbn. auto 10.
  - change (run Simple.App w (List.map change_at ((i, v) :: us)))
      with (run Simple.App (step Simple.App w (Change i v))
                (List.map change_at us)).
    rewrite Simple_step_Change, !latest_at_cons. cbn [fst snd].
    destruct i as [|[|i]].
    + destruct (IH (World (next (Simple.setBusiness v (store w)))
                          (trace w) (pending w)))
        as (Hb & Hl & Hr & Hg & Ht & Hp).
      cbn [store trace pending] in *. rewrite Hb, Hl, Hr, Hg, Ht, Hp.
      cbn. destruct (latest_at 0 us), (latest_at 1 us); auto 10.
    + destruct (IH (World (next (Simple.setLocation v (store w)))
                          (trace w) (pending w)))
        as (Hb & Hl & Hr & Hg & Ht & Hp).
      cbn [store trace pending] in *. rewrite Hb, Hl, Hr, Hg, Ht, Hp.
      cbn. destruct (latest_at 0 us), (latest_at 1 us); auto 10.
    + destruct (IH w) as (Hb & Hl & Hr & Hg & Ht & Hp).
      rewrite Hb, Hl, Hr, Hg, Ht, Hp.
      cbn. destruct (latest_at 0 us), (latest_at 1 us); auto 10.
Qed.

(** X1. In the first revision, after any sequence of edits of its inputs,
    from any world, the business input displays the value of the last edit
    at position 0 and the location input that of the last edit at position
    1 (their earlier values when there is none); an edit aimed at a position
    that holds no input changes nothing; and the results, the loading flag,
    the trace and the pending callbacks are as they were. *)
Theorem Simple_field_updates_show_latest_value :
  forall (w : world Simple.state) (us : list (nat * string)),
    let w' := run Simple.App w (List.map change_at us) in
    displayed Simple.App 0 w'
    = Some match latest_at 0 us with
           | Some v => v
           | None => Simple.business (store w)
           end
    /\ displayed Simple.App 1 w'
       = Some match latest_at 1 us with
              | Some v => v
              | None => Simple.location (store w)
              end
    /\ (forall i, 2 <= i -> displayed Simple.App i w' = None)
    /\ Simple.results (store w') = Simple.results (store w)
    /\ Simple.loading (store w') = Simple.loading (store w)
    /\ trace w' = trace w
    /\ pending w' = pending w.
Proof.
  intros w us w'.
  destruct (Simple_run_updates us w) as (Hb & Hl & Hrest).
  destruct (Simple_displayed w') as (D0 & D1 & D2).
  fold w' in Hb, Hl, Hrest.
  rewrite D0, D1, Hb, Hl. auto.
Qed.

(** X2. Whatever the state, and whether or not the results panel is shown,
    the tree holds the same controls in the same order: in the first revision
    two text inputs showing business and location, in the five-field
    revisions a text, a tel, an email and two text inputs showing the name,
    phone, email, business and location; and exactly one button. *)
Theorem form_controls_are_fixed :
  (forall s : Simple.state,
      List.map control (getElementsByTagName "input" (Simple.App s))
      = [(Some "text", Some (Simple.business s));
         (Some "text", Some (Simple.location s))]
      /\ List.length (getElementsByTagName "button" (Simple.App s)) = 1)
  /\ (forall s : FiveFields.state,
         List.map control (getElementsByTagName "input" (Validating.App s))
         = [(Some "text", Some (FiveFields.contactName s));
            (Some "tel", Some (FiveFields.phone s));
            (Some "email", Some (FiveFields.email s));
            (Some "text", Some (FiveFields.business s));
            (Some "text", Some (FiveFields.location s))]
         /\ List.length (getElementsByTagName "button" (Validating.App s)) = 1)
  /\ (forall s : FiveFields.state,
         List.map control (getElementsByTagName "input" (Webhook.App s))
         = [(Some "text", Some (FiveFields.contactName s));
            (Some "tel", Some (FiveFields.phone s));
            (Some "email", Some (FiveFields.email s));
            (Some "text", Some (FiveFields.business s));
            (Some "text", Some (FiveFields.location s))]
         /\ List.length (getElementsByTagName "button" (Webhook.App s)) = 1).
Proof.
  split; [|split]; intros s.
  - rewrite Simple_inputs, Simple_buttons. split; reflexivity.
  - unfold Validating.App. rewrite inputs_App, buttons_App.
    split; reflexivity.
  - unfold Webhook.App. rewrite inputs_App, buttons_App. split; reflexivity.
Qed.

Lemma FiveFields_button_view
      (runAudit : FiveFields.state -> M FiveFields.state unit)
      (s : FiveFields.state) :
  button_view (FiveFields.App runAudit s)
  = [(FiveFields.loading s,
      if FiveFields.loading s then "Running Audit..."
      else "Run Free AI Audit")].
Proof.
  unfold button_view. rewrite buttons_App.
  destruct (FiveFields.loading s); reflexivity.
Qed.

Lemma Simple_button_view (s : Simple.state) :
  button_view (Simple.App s)
  = [(Simple.loading s,
      if Simple.loading s then "Running Audit..." else "Run Audit")].
Proof.
  unfold button_view. rewrite Simple_buttons.
  destruct (Simple.loading s); reflexivity.
Qed.

Lemma brackets_button {S : Type} (App : S -> node (M S unit))
      (loading : S -> bool) (start : world S) (kind : task S -> Prop)
      (label : string) :
  loading_brackets_suspension App loading start kind ->
  (forall s, button_view (App s)
             = [(loading s,
                 if loading s then "Running Audit..." else label)]) ->
  button_tracks_pending App start label.
Proof.
  intros Hb Hv evs. destruct (Hb evs) as (_ & Hf & _).
  rewrite Hv. destruct (pending (run App start evs)) as [|t l].
  - rewrite (proj2 Hf eq_refl). reflexivity.
  - destruct (loading (store (run App start evs))); [reflexivity|].
    discriminate (proj1 Hf eq_refl).
Qed.

(** X3. The button is disabled exactly when [loading] is set and then reads
    Running Audit...; otherwise it carries the revision's label.  So in
    every reachable world the button is enabled while nothing is pending and
    disabled from the click until the timer fires or the request settles. *)
Theorem button_is_disabled_while_waiting :
  (forall s, button_view (Simple.App s)
             = [(Simple.loading s,
                 if Simple.loading s then "Running Audit..."
                 else "Run Audit")])
  /\ (forall s, button_view (Validating.App s)
                = [(FiveFields.loading s,
                    if FiveFields.loading s then "Running Audit..."
                    else "Run Free AI Audit")])
  /\ (forall s, button_view (Webhook.App s)
                = [(FiveFields.loading s,
                    if FiveFields.loading s then "Running Audit..."
                    else "Run Free AI Audit")])
  /\ button_tracks_pending Simple.App Simple.start "Run Audit"
  /\ button_tracks_pending Validating.App FiveFields.start "Run Free AI Audit"
  /\ button_tracks_pending Webhook.App FiveFields.start "Run Free AI Audit".
Proof.
  split; [exact Simple_button_view|].
  split; [exact (FiveFields_button_view Validating.runAudit)|].
  split; [exact (FiveFields_button_view Webhook.runAudit)|].
  split; [|split].
  - exact (brackets_button _ _ _ _ _ Simple_brackets Simple_button_view).
  - exact (brackets_button _ _ _ _ _ Validating_brackets
                           (FiveFields_button_view Validating.runAudit)).
  - exact (brackets_button _ _ _ _ _ Webhook_brackets
                           (FiveFields_button_view Webhook.runAudit)).
Qed.

(** ** Properties of the reachable worlds *)

(** X4. In every revision, as long as only user events have happened,
    field edits and clicks in any number and order, [results] is null and no
    results panel is rendered: a result appears only once a timer has fired
    or a request has settled. *)
Theorem results_null_until_a_wait_completes :
  null_until_resumed Simple.App Simple.results Simple.start
  /\ null_until_resumed Validating.App FiveFields.results FiveFields.start
  /\ null_until_resumed Webhook.App FiveFields.results FiveFields.start.
Proof.
  split; [|split]; intros evs Hev.
  - pose proof (run_user_keeps_results _ _ _ _ _ _ Simple_user_step evs
                  Simple.start Hev) as Hr.
    split; [exact Hr|].
    pose proof (Simple_renders_results (store (run Simple.App Simple.start evs)))
      as Hp.
    rewrite Hr in Hp. exact Hp.
  - pose proof (run_user_keeps_results _ _ _ _ _ _ Validating_user_step evs
                  FiveFields.start Hev) as Hr.
    split; [exact Hr|].
    pose proof (FiveFields_renders_results Validating.runAudit
                  (store (run Validating.App FiveFields.start evs))) as Hp.
    fold Validating.App in Hp. rewrite Hr in Hp. exact Hp.
  - pose proof (run_user_keeps_results _ _ _ _ _ _ Webhook_user_step evs
                  FiveFields.start Hev) as Hr.
    split; [exact Hr|].
    pose proof (FiveFields_renders_results Webhook.runAudit
                  (store (run Webhook.App FiveFields.start evs))) as Hp.
    fold Webhook.App in Hp. rewrite Hr in Hp. exact Hp.
Qed.

Lemma results_null_until_a_wait_completes_witness :
  FiveFields.results
    (store (run Webhook.App FiveFields.start
                [Change 0 "Ada"; Click; Change 1 "555"; Click]))
  = None.
Proof.
  refine (proj1 (proj2 (proj2 results_null_until_a_wait_completes)
                       [Change 0 "Ada"; Click; Change 1 "555"; Click] _)).
  repeat constructor.
Defined.

(** X5. In every revision, once [results] holds the constant in a reachable
    world it holds it ever after, whatever events follow: later edits,
    aborted or rejected submits and further cycles never clear or change
    it. *)
Theorem results_once_shown_stay :
  results_stay Simple.App Simple.results Simple.start Simple.simulatedResponse
  /\ results_stay Validating.App FiveFields.results FiveFields.start
                  Validating.simulatedResponse
  /\ results_stay Webhook.App FiveFields.results FiveFields.start
                  Webhook.simulatedResponse.
Proof.
  split; [|split]; intros evs1 evs2 Hr; rewrite run_app.
  - apply (run_results_stay _ _ _ _ _ _ Simple_user_step); [|exact Hr].
    apply (run_pending_ok _ _ _ _ _ _ Simple_user_step). constructor.
  - apply (run_results_stay _ _ _ _ _ _ Validating_user_step); [|exact Hr].
    apply (run_pending_ok _ _ _ _ _ _ Validating_user_step). constructor.
  - apply (run_results_stay _ _ _ _ _ _ Webhook_user_step); [|exact Hr].
    apply (run_pending_ok _ _ _ _ _ _ Webhook_user_step). constructor.
Qed.

Lemma results_once_shown_stay_witness :
  FiveFields.results
    (store (run Webhook.App FiveFields.start
                ([Click; Settle 0 (Fulfilled {| status := 200;
                                                responseText := "" |})]
                 ++ [Change 0 "Ada"; Click;
                     Settle 0 (Rejected (JSError "TypeError"
                                                 "Failed to fetch"))])))
  = Some Webhook.simulatedResponse.
Proof.
  refine (proj2 (proj2 results_once_shown_stay)
                [Click; Settle 0 (Fulfilled {| status := 200;
                                               responseText := "" |})]
                [Change 0 "Ada"; Click;
                 Settle 0 (Rejected (JSError "TypeError" "Failed to fetch"))]
                _).
  reflexivity.
Defined.

(** X6. The form is never reset: from any reachable world of any revision,
    every event other than a field edit (a click, a timer firing, a request
    settling), whether it is delivered or ignored, leaves every field value
    as it was. *)
Theorem only_field_edits_change_fields :
  only_edits_change_fields Simple.App simple_fields Simple.start
  /\ only_edits_change_fields Validating.App form_fields FiveFields.start
  /\ only_edits_change_fields Webhook.App form_fields FiveFields.start.
Proof.
  split; [|split]; intros evs ev Hc.
  - apply (step_keeps_fields _ _ _ _ _ _ Simple_user_step); [|exact Hc].
    apply (run_pending_ok _ _ _ _ _ _ Simple_user_step). constructor.
  - apply (step_keeps_fields _ _ _ _ _ _ Validating_user_step); [|exact Hc].
    apply (run_pending_ok _ _ _ _ _ _ Validating_user_step). constructor.
  - apply (step_keeps_fields _ _ _ _ _ _ Webhook_user_step); [|exact Hc].
    apply (run_pending_ok _ _ _ _ _ _ Webhook_user_step). constructor.
Qed.

Lemma only_field_edits_change_fields_witness :
  form_fields
    (store (step Validating.App
                 (run Validating.App FiveFields.start
                      [Change 0 "Ada"; Change 1 "555"; Change 2 "a@b.c";
                       Change 3 "Cafe"; Change 4 "London"; Click])
                 (Elapse 0)))
  = ["Ada"; "555"; "a@b.c"; "Cafe"; "London"].
Proof.
  refine (eq_trans
            (proj1 (proj2 only_field_edits_change_fields)
                   [Change 0 "Ada"; Change 1 "555"; Change 2 "a@b.c";
                    Change 3 "Cafe"; Change 4 "London"; Click]
                   (Elapse 0) _) _); reflexivity.
Defined.

Lemma forallb_false_nil {A : Type} (l : list A) :
  forallb (fun _ => false) l = true -> l = [].
Proof. destruct l; [reflexivity|discriminate]. Qed.

(** X7. What each revision never does.  The first revision performs no I/O
    at all: in every reachable world its trace is empty.  The validating
    revision only ever alerts and writes a console log: it sends nothing to
    the network and logs no error.  The webhook revision only ever sends the
    request and writes to the console: it never shows an alert. *)
Theorem io_of_each_revision :
  (forall evs, trace (run Simple.App Simple.start evs) = [])
  /\ performs_only Validating.App FiveFields.start validating_io
  /\ performs_only Webhook.App FiveFields.start webhook_io
  /\ (forall evs,
         filter is_fetch (trace (run Validating.App FiveFields.start evs)) = []
         /\ filter is_console_error
                   (trace (run Validating.App FiveFields.start evs)) = [])
  /\ (forall evs,
         filter is_alert (trace (run Webhook.App FiveFields.start evs)) = []).
Proof.
  assert (HV : performs_only Validating.App FiveFields.start validating_io).
  { intros evs.
    apply (run_trace_allowed _ _ _ _ _ _ Validating_user_step);
      [constructor|reflexivity]. }
  assert (HW : performs_only Webhook.App FiveFields.start webhook_io).
  { intros evs.
    apply (run_trace_allowed _ _ _ _ _ _ Webhook_user_step);
      [constructor|reflexivity]. }
  split; [|split; [exact HV|split; [exact HW|split]]].
  - intros evs. apply forallb_false_nil.
    apply (run_trace_allowed _ _ _ _ _ simple_io Simple_user_step);
      [constructor|reflexivity].
  - intros evs. specialize (HV evs).
    induction (trace (run Validating.App FiveFields.start evs)) as [|e l IH];
      [auto|].
    cbn [forallb] in HV. apply andb_prop in HV. destruct HV as [He Hl].
    destruct (IH Hl) as [I1 I2].
    destruct e; cbn in He |- *; try discriminate He; auto.
  - intros evs. specialize (HW evs).
    induction (trace (run Webhook.App FiveFields.start evs)) as [|e l IH];
      [auto|].
    cbn [forallb] in HW. apply andb_prop in HW. destruct HW as [He Hl].
    destruct e; cbn in He |- *; try discriminate He; auto.
Qed.

(** ** Properties of whole submit cycles *)

Lemma Simple_cycle (w : world Simple.state) :
  Simple.loading (store w) = false ->
  pending w = [] ->
  run Simple.App w [Click; Elapse 0]
  = World {| Simple.business := Simple.business (store w);
             Simple.location := Simple.location (store w);
             Simple.results := Some Simple.simulatedResponse;
             Simple.loading := false |}
          (trace w) [].
Proof.
  intros Hl Hp. destruct w as [s tr pe]. cbn in Hl, Hp. subst pe.
  cbn [run fold_left]. rewrite Simple_step_Click. cbn [store]. rewrite Hl.
  cbn. unfold exec. cbn. rewrite !app_nil_r. reflexivity.
Qed.

Lemma Validating_cycle_world (w : world FiveFields.state) :
  populated (store w) ->
  FiveFields.loading (store w) = false ->
  pending w = [] ->
  run Validating.App w [Click; Elapse 0]
  = World {| FiveFields.contactName := FiveFields.contactName (store w);
             FiveFields.phone := FiveFields.phone (store w);
             FiveFields.email := FiveFields.email (store w);
             FiveFields.business := FiveFields.business (store w);
             FiveFields.location := FiveFields.location (store w);
             FiveFields.results := Some Validating.simulatedResponse;
             FiveFields.loading := false |}
          (trace w
           ++ [ConsoleLog "Audit submitted:"
                 [("contactName", FiveFields.contactName (store w));
                  ("phone", FiveFields.phone (store w));
                  ("email", FiveFields.email (store w));
                  ("business", FiveFields.business (store w));
                  ("location", FiveFields.location (store w))]])
          [].
Proof.
  intros Hpop Hl Hp. destruct w as [s tr pe]. cbn [store pending] in *.
  subst pe. cbn [run fold_left]. unfold Validating.App.
  rewrite step_Click. cbn [store]. rewrite Hl. unfold exec.
  rewrite Validating_runAudit_proceeds by exact Hpop.
  cbn. unfold exec. cbn. rewrite ?app_nil_r. reflexivity.
Qed.

Lemma Webhook_cycle_world (w : world FiveFields.state) (p : settlement) :
  FiveFields.loading (store w) = false ->
  pending w = [] ->
  run Webhook.App w [Click; Settle 0 p]
  = World {| FiveFields.contactName := FiveFields.contactName (store w);
             FiveFields.phone := FiveFields.phone (store w);
             FiveFields.email := FiveFields.email (store w);
             FiveFields.business := FiveFields.business (store w);
             FiveFields.location := FiveFields.location (store w);
             FiveFields.results :=
               match p with
               | Fulfilled _ => Some Webhook.simulatedResponse
               | Rejected _ => FiveFields.results (store w)
               end;
             FiveFields.loading := false |}
          (trace w
           ++ [Fetch Webhook.url
                 {| method := "POST";
                    headers := [("Content-Type", "application/json")];
                    body := JS.JSON_stringify
                              [("name", FiveFields.contactName (store w));
                               ("phone", FiveFields.phone (store w));
                               ("email", FiveFields.email (store w));
                               ("business", FiveFields.business (store w));
                               ("location", FiveFields.location (store w))] |};
               match p with
               | Fulfilled _ =>
                   ConsoleLog "Audit submitted:"
                     [("contactName", FiveFields.contactName (store w));
                      ("phone", FiveFields.phone (store w));
                      ("email", FiveFields.email (store w));
                      ("business", FiveFields.business (store w));
                      ("location", FiveFields.location (store w))]
               | Rejected reason =>
                   ConsoleError "Error submitting to webhook:" reason
               end])
          [].
Proof.
  intros Hl Hp. destruct w as [s tr pe]. cbn [store pending trace] in *.
  subst pe. cbn [run fold_left]. unfold Webhook.App.
  rewrite step_Click. cbn [store]. rewrite Hl.
  destruct p as [r|e]; cbn -[JS.JSON_stringify]; unfold exec;
    cbn -[JS.JSON_stringify]; rewrite <- ?app_assoc; reflexivity.
Qed.

(** X8. A second submit repeats the first.  After a completed cycle the
    component is idle again, nothing pending and the button enabled, and a
    second cycle ends in the same state as the first: in the first revision
    with nothing else changed, in the validating revision with one more
    console log of the same values, and in the webhook revision, after a
    first fulfilled request, whatever the outcome of the second request. *)
Theorem second_submit_repeats_first :
  (forall w : world Simple.state,
      Simple.loading (store w) = false ->
      pending w = [] ->
      let w1 := run Simple.App w [Click; Elapse 0] in
      let w2 := run Simple.App w1 [Click; Elapse 0] in
      Simple.loading (store w1) = false /\ pending w1 = [] /\ w2 = w1)
  /\ (forall w : world FiveFields.state,
         populated (store w) ->
         FiveFields.loading (store w) = false ->
         pending w = [] ->
         let w1 := run Validating.App w [Click; Elapse 0] in
         let w2 := run Validating.App w1 [Click; Elapse 0] in
         FiveFields.loading (store w1) = false /\ pending w1 = []
         /\ store w2 = store w1 /\ pending w2 = []
         /\ trace w2
            = (trace w1
               ++ [ConsoleLog "Audit submitted:"
                     [("contactName", FiveFields.contactName (store w));
                      ("phone", FiveFields.phone (store w));
                      ("email", FiveFields.email (store w));
                      ("business", FiveFields.business (store w));
                      ("location", FiveFields.location (store w))]])%list)
  /\ (forall (w : world FiveFields.state) (response : Response)
             (p : settlement),
         FiveFields.loading (store w) = false ->
         pending w = [] ->
         let w1 := run Webhook.App w [Click; Settle 0 (Fulfilled response)] in
         let w2 := run Webhook.App w1 [Click; Settle 0 p] in
         FiveFields.loading (store w1) = false /\ pending w1 = []
         /\ store w2 = store w1 /\ pending w2 = []).
Proof.
  split; [|split].
  - intros w Hl Hp w1 w2. subst w2 w1.
    rewrite (Simple_cycle w Hl Hp).
    rewrite Simple_cycle by reflexivity. repeat split.
  - intros w Hpop Hl Hp w1 w2. subst w2 w1.
    rewrite (Validating_cycle_world w Hpop Hl Hp).
    rewrite Validating_cycle_world; [repeat split|exact Hpop| |];
      reflexivity.
  - intros w response p Hl Hp w1 w2. subst w2 w1.
    rewrite (Webhook_cycle_world w _ Hl Hp).
    rewrite Webhook_cycle_world by reflexivity.
    destruct p; repeat split.
Qed.

Lemma second_submit_repeats_first_witness :
  let w := run Validating.App FiveFields.start
               [Change 0 "Ada"; Change 1 "555"; Change 2 "a@b.c";
                Change 3 "Cafe"; Change 4 "London"] in
  store (run Validating.App (run Validating.App w [Click; Elapse 0])
             [Click; Elapse 0])
  = store (run Validating.App w [Click; Elapse 0])
  /\ run Simple.App (run Simple.App Simple.start [Click; Elapse 0])
         [Click; Elapse 0]
     = run Simple.App Simple.start [Click; Elapse 0]
  /\ store (run Webhook.App
                (run Webhook.App FiveFields.start
                     [Click; Settle 0 (Fulfilled {| status := 200;
                                                    responseText := "" |})])
                [Click; Settle 0 (Rejected (JSError "TypeError"
                                                    "Failed to fetch"))])
     = store (run Webhook.App FiveFields.start
                  [Click; Settle 0 (Fulfilled {| status := 200;
                                                 responseText := "" |})]).
Proof.
  intros w.
  assert (Hp : populated (store w)) by (intros []; cbn; discriminate).
  destruct second_submit_repeats_first as (HS & HV & HW).
  split; [exact (proj1 (proj2 (proj2 (HV w Hp eq_refl eq_refl))))|].
  split; [exact (proj2 (proj2 (HS Simple.start eq_refl eq_refl)))|].
  exact (proj1 (proj2 (proj2 (HW FiveFields.start
                                 {| status := 200; responseText := "" |}
                                 (Rejected (JSError "TypeError"
                                                    "Failed to fetch"))
                                 eq_refl eq_refl)))).
Defined.

(** X9. The webhook revision sends and logs the values of the rendering that
    was clicked.  Whatever the user edits or clicks while the request is
    pending, the cycle adds to the trace exactly the request, whose body
    holds the five values at the time of the click, and, once the request is
    fulfilled, the log of those same values; the edits made meanwhile stay
    in the form, neither sent nor logged. *)
Theorem webhook_sends_and_logs_click_time_values :
  forall (w : world FiveFields.state) (evs : list event) (response : Response),
    FiveFields.loading (store w) = false ->
    pending w = [] ->
    Forall (fun ev => from_user ev = true) evs ->
    let w2 := run Webhook.App (step Webhook.App w Click) evs in
    let w3 := step Webhook.App w2 (Settle 0 (Fulfilled response)) in
    trace w3
    = (trace w
       ++ [Fetch "https://hook.eu2.make.com/oro7fxpewgxa31b8ke1aofxol60129xo"
             {| method := "POST";
                headers := [("Content-Type", "application/json")];
                body := JS.JSON_stringify
                          [("name", FiveFields.contactName (store w));
                           ("phone", FiveFields.phone (store w));
                           ("email", FiveFields.email (store w));
                           ("business", FiveFields.business (store w));
                           ("location", FiveFields.location (store w))] |};
           ConsoleLog "Audit submitted:"
             [("contactName", FiveFields.contactName (store w));
              ("phone", FiveFields.phone (store w));
              ("email", FiveFields.email (store w));
              ("business", FiveFields.business (store w));
              ("location", FiveFields.location (store w))]])%list
    /\ form_fields (store w3) = form_fields (store w2).
Proof.
  intros w evs response Hl Hp Hev w2 w3.
  destruct (Webhook_cycle w evs (Fulfilled response) Hl Hp Hev)
    as (_ & _ & _ & _ & _ & T3).
  split; [exact T3|].
  subst w3. apply (step_keeps_fields _ _ _ _ _ _ Webhook_user_step);
    [|reflexivity].
  subst w2. apply (run_pending_ok _ _ _ _ _ _ Webhook_user_step).
  apply (step_pending_ok _ _ _ _ _ _ Webhook_user_step).
  rewrite Hp. constructor.
Qed.

Lemma webhook_sends_and_logs_click_time_values_witness :
  let w := run Webhook.App FiveFields.start [Change 4 "London"] in
  let w3 := step Webhook.App
                 (run Webhook.App (step Webhook.App w Click)
                      [Change 4 "Paris"])
                 (Settle 0 (Fulfilled {| status := 200;
                                         responseText := "" |})) in
  filter is_console_log (trace w3)
  = [ConsoleLog "Audit submitted:"
       [("contactName", ""); ("phone", ""); ("email", "");
        ("business", ""); ("location", "London")]]
  /\ form_fields (store w3) = [""; ""; ""; ""; "Paris"].
Proof.
  intros w w3.
  assert (H : Forall (fun ev => from_user ev = true) [Change 4 "Paris"])
    by repeat constructor.
  destruct (webhook_sends_and_logs_click_time_values
              w [Change 4 "Paris"] {| status := 200; responseText := "" |}
              eq_refl eq_refl H) as [Ht Hf].
  fold w3 in Ht, Hf. split.
  - rewrite Ht. reflexivity.
  - rewrite Hf. reflexivity.
Defined.

Lemma FiveFields_panel_reads
      (runAudit : FiveFields.state -> M FiveFields.state unit)
      (s : FiveFields.state) (r : AuditResult) :
  FiveFields.results s = Some r ->
  panel_reads (FiveFields.App runAudit s)
    [ "Directories Found: " ++ JS.join ", " (directories r);
      "Missing Listings: " ++ JS.join ", " (missing r);
      "AI Mentions Detected: " ++ (if aiMention r then "Yes" else "No") ]
    (recommendations r).
Proof.
  intros Hr. pose proof (FiveFields_renders_results runAudit s) as H.
  rewrite Hr in H. destruct H as [panel [Hp (H1 & H2 & _)]].
  exists panel. auto.
Qed.

Lemma Simple_panel_reads (s : Simple.state) (r : AuditResult) :
  Simple.results s = Some r ->
  panel_reads (Simple.App s)
    [ "Directories Found: " ++ JS.join ", " (directories r);
      "Missing: " ++ JS.join ", " (missing r);
      "AI Mentioned in Test Prompts: "
      ++ (if aiMention r then "Yes" else "No") ]
    (recommendations r).
Proof.
  intros Hr. pose proof (Simple_renders_results s) as H.
  rewrite Hr in H. destruct H as [panel [Hp (H1 & H2 & _)]].
  exists panel. auto.
Qed.

Lemma Simple_user_events_while_loading (evs : list event)
      (w : world Simple.state) :
  Simple.loading (store w) = true ->
  Forall (fun ev => from_user ev = true) evs ->
  Simple.loading (store (run Simple.App w evs)) = true
  /\ pending (run Simple.App w evs) = pending w.
Proof.
  intros Hl Hev. revert w Hl.
  induction Hev as [|ev evs Hu _ IH]; intros w Hl; [cbn; auto|].
  cbn [run fold_left].
  assert (Hstep : Simple.loading (store (step Simple.App w ev)) = true
                  /\ pending (step Simple.App w ev) = pending w).
  { destruct ev as [i v| |i|i p]; try discriminate Hu.
    - destruct (Simple_change_keeps_loading w i v) as [El Ep].
      rewrite El, Ep. auto.
    - rewrite Simple_step_Click, Hl. auto. }
  destruct Hstep as [El Ep]. destruct (IH _ El) as [Fl Fp].
  unfold run in *. rewrite Fl, Fp, Ep. auto.
Qed.

Lemma Simple_cycle_results (w : world Simple.state) (evs : list event) :
  Simple.loading (store w) = false ->
  pending w = [] ->
  Forall (fun ev => from_user ev = true) evs ->
  Simple.results
    (store (step Simple.App
                 (run Simple.App (step Simple.App w Click) evs)
                 (Elapse 0)))
  = Some Simple.simulatedResponse.
Proof.
  intros Hl Hp Hev.
  assert (E1 : step Simple.App w Click = exec Simple.runAudit w []).
  { rewrite Simple_step_Click, Hl, Hp. reflexivity. }
  assert (L1 : Simple.loading (store (step Simple.App w Click)) = true)
    by (rewrite E1; reflexivity).
  destruct (Simple_user_events_while_loading evs _ L1 Hev) as [_ P2].
  remember (step Simple.App w Click) as w1 eqn:Ew1.
  cbn [step]. rewrite P2, E1. reflexivity.
Qed.

(** X10. What the user reads after a completed cycle.  Whatever was typed,
    before the click or while waiting, once the timer has fired, or the
    request has been fulfilled, the tree holds one results panel, which
    reads: the three directories joined by a comma and a space, the one
    missing listing, No for the AI mentions, and the three recommendations
    as three list items in their order. *)
Theorem completed_cycle_shows_the_canned_report :
  let items :=
    ["Create a Yelp profile with full business details.";
     "Add structured FAQ to your website (schema.org markup).";
     "Get mentioned on local blogs or Reddit threads."] in
  (forall (w : world Simple.state) (evs : list event),
      Simple.loading (store w) = false ->
      pending w = [] ->
      Forall (fun ev => from_user ev = true) evs ->
      panel_reads
        (Simple.App
           (store (step Simple.App
                        (run Simple.App (step Simple.App w Click) evs)
                        (Elapse 0))))
        ["Directories Found: Google Business, Yelp, Bing Places";
         "Missing: Yelp";
         "AI Mentioned in Test Prompts: No"]
        items)
  /\ (forall (w : world FiveFields.state) (evs : list event),
         populated (store w) ->
         FiveFields.loading (store w) = false ->
         pending w = [] ->
         Forall (fun ev => from_user ev = true) evs ->
         panel_reads
           (Validating.App
              (store (step Validating.App
                           (run Validating.App (step Validating.App w Click)
                                evs)
                           (Elapse 0))))
           ["Directories Found: Google Business, Yelp, Bing Places";
            "Missing Listings: Yelp";
            "AI Mentions Detected: No"]
           items)
  /\ (forall (w : world FiveFields.state) (evs : list event)
             (response : Response),
         FiveFields.loading (store w) = false ->
         pending w = [] ->
         Forall (fun ev => from_user ev = true) evs ->
         panel_reads
           (Webhook.App
              (store (step Webhook.App
                           (run Webhook.App (step Webhook.App w Click) evs)
                           (Settle 0 (Fulfilled response)))))
           ["Directories Found: Google Business, Yelp, Bing Places";
            "Missing Listings: Yelp";
            "AI Mentions Detected: No"]
           items).
Proof.
  intros items. split; [|split].
  - intros w evs Hl Hp Hev.
    exact (Simple_panel_reads _ Simple.simulatedResponse
                              (Simple_cycle_results w evs Hl Hp Hev)).
  - intros w evs Hpop Hl Hp Hev.
    destruct (Validating_cycle w evs Hpop Hl Hp Hev) as (_ & _ & _ & R3 & _).
    exact (FiveFields_panel_reads Validating.runAudit _
                                  Validating.simulatedResponse R3).
  - intros w evs response Hl Hp Hev.
    destruct (Webhook_cycle w evs (Fulfilled response) Hl Hp Hev)
      as (_ & _ & _ & R3 & _).
    exact (FiveFields_panel_reads Webhook.runAudit _
                                  Webhook.simulatedResponse R3).
Qed.

Lemma completed_cycle_shows_the_canned_report_witness :
  panel_reads
    (Webhook.App
       (store (step Webhook.App
                    (run Webhook.App (step Webhook.App FiveFields.start Click)
                         [Change 0 "Ada"; Click])
                    (Settle 0 (Fulfilled {| status := 404;
                                            responseText := "" |})))))
    ["Directories Found: Google Business, Yelp, Bing Places";
     "Missing Listings: Yelp";
     "AI Mentions Detected: No"]
    ["Create a Yelp profile with full business details.";
     "Add structured FAQ to your website (schema.org markup).";
     "Get mentioned on local blogs or Reddit threads."]
  /\ panel_reads
       (Simple.App
          (store (step Simple.App
                       (run Simple.App (step Simple.App Simple.start Click)
                            [Change 0 "Cafe"; Click; Change 1 "London"])
                       (Elapse 0))))
       ["Directories Found: Google Business, Yelp, Bing Places";
        "Missing: Yelp";
        "AI Mentioned in Test Prompts: No"]
       ["Create a Yelp profile with full business details.";
        "Add structured FAQ to your website (schema.org markup).";
        "Get mentioned on local blogs or Reddit threads."].
Proof.
  split.
  - refine (proj2 (proj2 completed_cycle_shows_the_canned_report)
                  FiveFields.start [Change 0 "Ada"; Click]
                  {| status := 404; responseText := "" |} _ _ _);
      [reflexivity|reflexivity|repeat constructor].
  - refine (proj1 completed_cycle_shows_the_canned_report
                  Simple.start [Change 0 "Cafe"; Click; Change 1 "London"]
                  _ _ _);
      [reflexivity|reflexivity|repeat constructor].
Defined.

(** X11. A double click submits once.  In the first and the webhook
    revision, from any world, a second click right after a click changes
    nothing: no second timer, no second request.  The same holds in the
    validating revision when the form is populated. *)
Theorem double_click_submits_once :
  (forall w : world Simple.state,
      step Simple.App (step Simple.App w Click) Click
      = step Simple.App w Click)
  /\ (forall w : world FiveFields.state,
         populated (store w) ->
         step Validating.App (step Validating.App w Click) Click
         = step Validating.App w Click)
  /\ (forall w : world FiveFields.state,
         step Webhook.App (step Webhook.App w Click) Click
         = step Webhook.App w Click).
Proof.
  split; [|split].
  - intros w. rewrite (Simple_step_Click w).
    destruct (Simple.loading (store w)) eqn:Hl.
    + rewrite Simple_step_Click, Hl. reflexivity.
    + rewrite Simple_step_Click. reflexivity.
  - intros w Hpop. unfold Validating.App. rewrite (step_Click _ w).
    destruct (FiveFields.loading (store w)) eqn:Hl.
    + rewrite step_Click, Hl. reflexivity.
    + rewrite step_Click. unfold exec.
      rewrite Validating_runAudit_proceeds by exact Hpop. reflexivity.
  - intros w. unfold Webhook.App. rewrite (step_Click _ w).
    destruct (FiveFields.loading (store w)) eqn:Hl.
    + rewrite step_Click, Hl. reflexivity.
    + rewrite step_Click. reflexivity.
Qed.

Lemma double_click_submits_once_witness :
  let w := run Validating.App FiveFields.start
               [Change 0 "Ada"; Change 1 "555"; Change 2 "a@b.c";
                Change 3 "Cafe"; Change 4 "London"] in
  List.length (pending (step Validating.App (step Validating.App w Click)
                             Click)) = 1.
Proof.
  intros w.
  assert (Hp : populated (store w)) by (intros []; cbn; discriminate).
  rewrite (proj1 (proj2 double_click_submits_once) w Hp). reflexivity.
Defined.
